(** * hidemyemail-cli: credential store, biometric gate and session manager

    A shallow embedding of [hidemyemail/auth/keychain.py],
    [hidemyemail/auth/touchid.py] and [hidemyemail/core/icloud_client.py],
    with the properties of the credential/session subsystem proved about it.

    The Python objects are records, the methods are computations in a
    state-and-exception monad, and everything outside the repository (the
    [/usr/bin/security] utility, the LocalAuthentication framework, the
    [pyicloud] client and the session directory on disk) is an explicit
    environment: the calls that cross the boundary are recorded, in order,
    in a trace, so that "is never called" and "is called once" are
    statements about that trace. *)

From Stdlib Require Import ZArith String Ascii List Bool Lia.
From stdpp Require Import base option strings gmap pretty.

Open Scope string_scope.
Open Scope Z_scope.

(* ===================================================================== *)
(** * Python strings *)
(* ===================================================================== *)

(** A Python [str] is modelled as a [string] whose characters are the code
    points below 256. *)
Module PyStr.

(** [str.isspace] for one character below U+0100: TAB, LF, VT, FF, CR,
    the separators U+001C..U+001F, SPACE, NEL (U+0085) and NBSP (U+00A0). *)
Definition isspace (c : ascii) : bool :=
  let n := N_of_ascii c in
  ((9 <=? n) && (n <=? 13) || (28 <=? n) && (n <=? 32)
   || (n =? 133) || (n =? 160))%N.

(** [s.lstrip()] *)
Fixpoint lstrip (s : string) : string :=
  match s with
  | EmptyString => EmptyString
  | String c s' => if isspace c then lstrip s' else s
  end.

(** [bool(s)]: a string is truthy when it is not empty. *)
Definition truthy (s : string) : bool :=
  match s with EmptyString => false | String _ _ => true end.

(** [s.rstrip()] *)
Fixpoint rstrip (s : string) : string :=
  match s with
  | EmptyString => EmptyString
  | String c s' =>
      let r := rstrip s' in
      if isspace c && negb (truthy r) then EmptyString else String c r
  end.

(** [s.strip()] *)
Definition strip (s : string) : string := lstrip (rstrip s).

(** [s.startswith(p)] *)
Fixpoint startswith (p s : string) : bool :=
  match p, s with
  | EmptyString, _ => true
  | String _ _, EmptyString => false
  | String a p', String b s' => if Ascii.eqb a b then startswith p' s' else false
  end.

(** [sub in s] *)
Fixpoint contains (sub s : string) : bool :=
  startswith sub s ||
  match s with
  | EmptyString => false
  | String _ s' => contains sub s'
  end.

(** [str(n)] for an [int]. *)
Definition of_int (n : Z) : string := pretty n.

(** [str(x)] for an [Optional[str]]: [None] prints as ["None"]. *)
Definition of_optional (x : option string) : string :=
  match x with Some s => s | None => "None" end.

(** [x or y] on strings. *)
Definition or_else (x y : string) : string := if truthy x then x else y.

(** Does the string hold a NUL character?  [subprocess.run] refuses such
    an argument with [ValueError("embedded null byte")]. *)
Fixpoint has_nul (s : string) : bool :=
  match s with
  | EmptyString => false
  | String c s' => (N_of_ascii c =? 0)%N || has_nul s'
  end.


End PyStr.

(* ===================================================================== *)
(** * keychain.py: the status-code table *)
(* ===================================================================== *)

Definition SERVICE_NAME : string := "com.hidemyemail.cli".

(** The dictionary [SEC_ERROR_MESSAGES], in the source's order. *)
Definition SEC_ERROR_MESSAGES : gmap Z string :=
  list_to_map
    [ (0, "Success");
      (-4, "Function or operation not implemented");
      (-25291, "No keychain is available");
      (-25292, "The specified keychain is not a valid keychain file");
      (-25293, "The specified keychain could not be opened");
      (-25294, "A duplicate keychain item already exists");
      (-25295, "The specified item could not be found in the keychain");
      (-25296, "Keychain interaction is not allowed by the caller");
      (-25297, "The keychain interaction was blocked by the user");
      (-25298, "The caller does not have access to the keychain item");
      (-25299, "The specified data is invalid for keychain");
      (-25300, "No default keychain exists");
      (-25308, "Interaction with the Security Server is not allowed");
      (-26275, "An authorization/authentication was canceled");
      (-26276, "Authorization/Authentication failed");
      (-34018, "A required entitlement is missing (code signing issue)");
      (-50, "One or more parameters passed were not valid");
      (-67030, "Device passcode is not set (required for biometric protection)") ].

(** [get_security_error_message(status)] *)
Definition get_security_error_message (status : Z) : string :=
  match SEC_ERROR_MESSAGES !! status with
  | Some msg => msg ++ " (error " ++ PyStr.of_int status ++ ")"
  | None => "Unknown security error (error " ++ PyStr.of_int status ++ ")"
  end.

(* ===================================================================== *)
(** * Python control flow: results, exceptions and mutable state *)
(* ===================================================================== *)

(** The exceptions the three modules raise, catch or let through.  Only
    subclasses of Python's [Exception] are modelled: they are what
    [except Exception] catches. *)
Inductive Exn : Type :=
| ImportError (msg : string)
| FileNotFoundError (msg : string)
| PyiCloudFailedLoginException (msg : string)
| AuthenticationError (msg : string)
| TwoFactorRequiredError (msg : string)
| CredentialsNotFoundError (msg : string)
| OtherException (msg : string).

(** [str(e)] *)
Definition exn_str (e : Exn) : string :=
  match e with
  | ImportError m | FileNotFoundError m | PyiCloudFailedLoginException m
  | AuthenticationError m | TwoFactorRequiredError m
  | CredentialsNotFoundError m | OtherException m => m
  end.

(** How a call ends: it returns a value or raises. *)
Inductive Outcome (A : Type) : Type :=
| Return (a : A)
| Raise (e : Exn).
Arguments Return {A} a.
Arguments Raise {A} e.

(** A computation over a mutable state [S].  The state reached when an
    exception is raised is kept: assignments made before a [raise] stay. *)
Definition Py (S A : Type) : Type := S -> Outcome A * S.

Definition ret {S A : Type} (a : A) : Py S A := fun s => (Return a, s).

Definition raise {S A : Type} (e : Exn) : Py S A := fun s => (Raise e, s).

Definition bind {S A B : Type} (m : Py S A) (k : A -> Py S B) : Py S B :=
  fun s =>
    match m s with
    | (Return a, s') => k a s'
    | (Raise e, s') => (Raise e, s')
    end.

(** [try: body  except ...: handler]: the handler says which exceptions it
    takes ([None]: the exception goes on). *)
Definition try_except {S A : Type} (body : Py S A)
    (handler : Exn -> option (Py S A)) : Py S A :=
  fun s =>
    match body s with
    | (Return a, s') => (Return a, s')
    | (Raise e, s') =>
        match handler e with
        | Some h => h s'
        | None => (Raise e, s')
        end
    end.

(** Run a computation on a part of the state ([get] reads the part, [put]
    writes it back). *)
Definition zoom {S T A : Type} (get : S -> T) (put : T -> S -> S)
    (m : Py T A) : Py S A :=
  fun s => let '(r, t') := m (get s) in (r, put t' s).

Declare Scope py_scope.
Delimit Scope py_scope with py.
Notation "x <- m ;; k" := (bind m (fun x => k))
  (at level 100, m at next level, right associativity) : py_scope.
Notation "m ;; k" := (bind m (fun _ => k))
  (at level 100, right associativity) : py_scope.
Open Scope py_scope.

(* ===================================================================== *)
(** * The environment *)
(* ===================================================================== *)

(** An entry of the session directory [~/.hidemyemail/session]. *)
Inductive CookieEntry : Type := CookieFile | CookieDirectory.

(** The object [PyiCloudService(apple_id, password, cookie_directory)]
    builds.  [created_at] tells two clients built at different moments
    apart, as Python's object identity does. *)
Record PyiCloudService : Type := {
  apple_id : string;
  password : string;
  created_at : nat;
}.

(** The calls that leave the three modules, and the calls of the gate's two
    entry points. *)
Inductive Event : Type :=
| Call_is_available                       (* touchid.is_available() *)
| Call_authenticate (reason : string)     (* touchid.authenticate(reason) *)
| Ev_canEvaluatePolicy                    (* LAContext.canEvaluatePolicy_error_ *)
| Ev_evaluatePolicy (reason : string)     (* LAContext.evaluatePolicy_..., the prompt *)
| Ev_subprocess_run (args : list string)  (* subprocess.run(args, ...) *)
| Ev_mkdir                                (* COOKIE_DIR.mkdir(parents, exist_ok) *)
| Ev_exists (name : string)               (* (COOKIE_DIR / name).exists() *)
| Ev_remove (name : string)               (* shutil.rmtree / Path.unlink *)
| Ev_login (apple_id password : string)   (* PyiCloudService(...) *)
| Ev_requires_2fa (api : PyiCloudService)
| Ev_twofa_callback                       (* twofa_callback() *)
| Ev_validate_2fa_code (api : PyiCloudService) (code : string)
| Ev_is_trusted_session (api : PyiCloudService)
| Ev_trust_session (api : PyiCloudService).

(** What lies outside the process: the generic-password items of the login
    keychain, by (service, account); whether [/usr/bin/security] exists; the
    entries of the session directory, by name ([COOKIE_DIR / username] is
    the entry named [username]: account names are taken as plain file
    names); and the calls made so far, oldest first. *)
Record World : Type := {
  keychain_items : gmap (string * string) string;
  security_installed : bool;
  session_dir : gmap string CookieEntry;
  trace : list Event;
}.

Definition set_keychain_items (k : gmap (string * string) string) (w : World) : World :=
  {| keychain_items := k; security_installed := security_installed w;
     session_dir := session_dir w; trace := trace w |}.

Definition set_session_dir (d : gmap string CookieEntry) (w : World) : World :=
  {| keychain_items := keychain_items w; security_installed := security_installed w;
     session_dir := d; trace := trace w |}.

(** Append calls to the trace. *)
Definition log_events (d : list Event) (w : World) : World :=
  {| keychain_items := keychain_items w; security_installed := security_installed w;
     session_dir := session_dir w; trace := trace w ++ d |}.

Definition log_event (e : Event) (w : World) : World := log_events [e] w.

(** Record a call. *)
Definition log (e : Event) : Py World unit := fun w => (Return tt, log_event e w).

(** A call answered from outside: the answer may depend on everything that
    happened so far; the call is recorded. *)
Definition ask {A : Type} (e : Event) (answer : World -> Outcome A) : Py World A :=
  fun w => (answer w, log_event e w).

(** A call answered from outside that may also rewrite the session
    directory (the remote client keeps its cookies there). *)
Definition ask_session {A : Type} (e : Event)
    (answer : World -> Outcome A * gmap string CookieEntry) : Py World A :=
  fun w => let '(r, d) := answer w in (r, set_session_dir d (log_event e w)).

(** The LocalAuthentication framework, as [touchid.py] uses it. *)
Record LocalAuthentication : Type := {
  (** does [from LocalAuthentication import ...] succeed? *)
  la_importable : World -> bool;
  (** [context.canEvaluatePolicy_error_(policy, None)]: the pair
      [(can_evaluate, error)], the error by its [localizedDescription()] *)
  la_canEvaluatePolicy : World -> Outcome (bool * option string);
  (** what the reply block of [evaluatePolicy_localizedReason_reply_] is
      called with: [(success, auth_error)] *)
  la_evaluatePolicy : string -> World -> Outcome (bool * option string);
}.

(** The result of [subprocess.run]. *)
Record CompletedProcess : Type := {
  returncode : Z;
  stdout : string;
  stderr : string;
}.

(** A program run by [subprocess.run]: from the argument list and the world
    to the outcome of the call and the keychain items it leaves. *)
Definition Program : Type :=
  list string -> World -> Outcome CompletedProcess * gmap (string * string) string.

(** The [pyicloud] client. *)
Record PyiCloud : Type := {
  (** the constructor: logs in, raising [PyiCloudFailedLoginException]
      when the service refuses the credentials *)
  icloud_login : string -> string -> World -> Outcome unit * gmap string CookieEntry;
  icloud_requires_2fa : PyiCloudService -> World -> Outcome bool;
  icloud_validate_2fa_code :
    PyiCloudService -> string -> World -> Outcome bool * gmap string CookieEntry;
  icloud_is_trusted_session : PyiCloudService -> World -> Outcome bool;
  icloud_trust_session :
    PyiCloudService -> World -> Outcome bool * gmap string CookieEntry;
}.

(* ===================================================================== *)
(** * touchid.py *)
(* ===================================================================== *)

(** The module loads [libSystem] when it is imported; this is macOS, and the
    load succeeds. *)

Module touchid.
Section WithPlatform.
Variable LA : LocalAuthentication.

(** [from LocalAuthentication import LAContext, LAPolicy...] *)
Definition import_LocalAuthentication : Py World unit :=
  fun w =>
    if la_importable LA w then (Return tt, w)
    else (Raise (ImportError "No module named 'LocalAuthentication'"), w).

(** [is_available()]: every failure, of the import or of the framework,
    means "not available". *)
Definition is_available : Py World bool :=
  log Call_is_available ;;
  try_except
    (import_LocalAuthentication ;;
     r <- ask Ev_canEvaluatePolicy (la_canEvaluatePolicy LA) ;;
     let '(can_evaluate, _) := r in
     ret can_evaluate)
    (fun e =>
       match e with
       | ImportError _ => Some (ret false)
       | _ => Some (ret false)
       end).

(** [authenticate(reason)]: [(success, error_message)].  The wait on the
    semaphore is the arrival of the reply; a reply that never comes is
    outside the model. *)
Definition authenticate (reason : string) : Py World (bool * option string) :=
  log (Call_authenticate reason) ;;
  imported <- try_except
                (import_LocalAuthentication ;; ret true)
                (fun e =>
                   match e with
                   | ImportError _ => Some (ret false)
                   | _ => None
                   end) ;;
  if negb imported then
    ret (false, Some "LocalAuthentication framework not available")
  else
    r <- ask Ev_canEvaluatePolicy (la_canEvaluatePolicy LA) ;;
    let '(can_evaluate, error) := r in
    if negb can_evaluate then
      let error_msg :=
        match error with
        | Some description => description
        | None => "Touch ID not available"
        end in
      ret (false, Some error_msg)
    else
      reply <- ask (Ev_evaluatePolicy reason) (la_evaluatePolicy LA reason) ;;
      let '(success, auth_error) := reply in
      ret (success, auth_error).

End WithPlatform.
End touchid.

(* ===================================================================== *)
(** * keychain.py: KeychainManager *)
(* ===================================================================== *)

Module KeychainManager.

(** The object's one field that is read again, [_last_error]. *)
Record t : Type := { _last_error : option string }.

(** [KeychainManager()] *)
Definition new : t := {| _last_error := None |}.

Definition State : Type := (t * World)%type.

(** A computation on the world, run from a method. *)
Definition io {A : Type} (m : Py World A) : Py State A :=
  zoom snd (fun w (s : State) => (fst s, w)) m.

(** [self._last_error = v] *)
Definition set_last_error (v : option string) : Py State unit :=
  fun s => (Return tt, ({| _last_error := v |}, snd s)).

(** The property [last_error]. *)
Definition last_error : Py State (option string) :=
  fun s => (Return (_last_error (fst s)), s).

Section WithEnvironment.
Variable LA : LocalAuthentication.
Variable security : Program.

(** [subprocess.run(args, capture_output=True, ...)] *)
Definition subprocess_run (args : list string) : Py World CompletedProcess :=
  fun w =>
    let '(r, items) := security args w in
    (r, set_keychain_items items (log_event (Ev_subprocess_run args) w)).

(** [_store_password_fallback(account, password)] *)
Definition _store_password_fallback (account password : string) : Py State bool :=
  try_except
    (io (subprocess_run
           ["/usr/bin/security"; "delete-generic-password";
            "-s"; SERVICE_NAME; "-a"; account]) ;;
     result <- io (subprocess_run
                     ["/usr/bin/security"; "add-generic-password";
                      "-s"; SERVICE_NAME; "-a"; account;
                      "-w"; password; "-U"]) ;;
     if negb (returncode result =? 0) then
       let stderr := PyStr.strip (stderr result) in
       (if PyStr.truthy stderr then
          set_last_error (Some ("security command failed: " ++ stderr))
        else
          set_last_error
            (Some ("security command failed with code "
                   ++ PyStr.of_int (returncode result)))) ;;
       ret false
     else ret true)
    (fun e =>
       match e with
       | FileNotFoundError _ =>
           Some (set_last_error (Some "/usr/bin/security command not found") ;;
                 ret false)
       | _ =>
           Some (set_last_error (Some ("Unexpected error: " ++ exn_str e)) ;;
                 ret false)
       end).

(** [_get_password_fallback(account)] *)
Definition _get_password_fallback (account : string) : Py State (option string) :=
  try_except
    (result <- io (subprocess_run
                     ["/usr/bin/security"; "find-generic-password";
                      "-s"; SERVICE_NAME; "-a"; account; "-w"]) ;;
     if returncode result =? 0 then
       ret (Some (PyStr.strip (stdout result)))
     else
       (if PyStr.contains "could not be found" (stderr result) then
          set_last_error (Some "No credentials found for this account")
        else
          set_last_error
            (Some (PyStr.or_else (PyStr.strip (stderr result))
                     ("Failed with code " ++ PyStr.of_int (returncode result))))) ;;
       ret None)
    (fun e =>
       match e with
       | FileNotFoundError _ =>
           Some (set_last_error (Some "/usr/bin/security command not found") ;;
                 ret None)
       | _ =>
           Some (set_last_error (Some ("Unexpected error: " ++ exn_str e)) ;;
                 ret None)
       end).

(** [_delete_password_fallback(account)] *)
Definition _delete_password_fallback (account : string) : Py State bool :=
  try_except
    (result <- io (subprocess_run
                     ["/usr/bin/security"; "delete-generic-password";
                      "-s"; SERVICE_NAME; "-a"; account]) ;;
     ret ((returncode result =? 0)
          || PyStr.contains "could not be found" (stderr result)))
    (fun e =>
       Some (set_last_error (Some ("Unexpected error: " ++ exn_str e)) ;;
             ret false)).

(** [_has_password_fallback(account)] *)
Definition _has_password_fallback (account : string) : Py State bool :=
  try_except
    (result <- io (subprocess_run
                     ["/usr/bin/security"; "find-generic-password";
                      "-s"; SERVICE_NAME; "-a"; account]) ;;
     ret (returncode result =? 0))
    (fun _ => Some (ret false)).

(** [store_password(account, password, require_biometry=True)]: the flag
    is not read. *)
Definition store_password (account password : string) (require_biometry : bool)
  : Py State bool :=
  set_last_error None ;;
  _store_password_fallback account password.

(** [get_password(account, prompt)] *)
Definition get_password (account prompt : string) : Py State (option string) :=
  set_last_error None ;;
  available <- io (touchid.is_available LA) ;;
  if available then
    r <- io (touchid.authenticate LA prompt) ;;
    let '(success, error) := r in
    if negb success then
      set_last_error
        (Some ("Touch ID authentication failed: " ++ PyStr.of_optional error)) ;;
      ret None
    else _get_password_fallback account
  else _get_password_fallback account.

(** [delete_password(account)] *)
Definition delete_password (account : string) : Py State bool :=
  _delete_password_fallback account.

(** [has_password(account)] *)
Definition has_password (account : string) : Py State bool :=
  _has_password_fallback account.

End WithEnvironment.
End KeychainManager.

(* ===================================================================== *)
(** * The [/usr/bin/security] utility *)
(* ===================================================================== *)

(** The model of the macOS utility the methods above run: the four
    invocations the source makes, on a keychain of generic-password items.
    [subprocess.run] raises [FileNotFoundError] when the program is missing
    and [ValueError] on an argument with a NUL character; an item that is
    not there gives exit status 44 and the framework's message on stderr;
    [find-generic-password -w] prints the password and a newline (the
    utility prints a password with unprintable characters in hexadecimal;
    the model prints every password as it is). *)
Module Security.

Definition completed (rc : Z) (out err : string) : CompletedProcess :=
  {| returncode := rc; stdout := out; stderr := err |}.

Definition newline : string := String "010"%char EmptyString.

Definition not_found : CompletedProcess :=
  completed 44 ""
    ("security: SecKeychainSearchCopyNext: The specified item could not be found in the keychain."
     ++ newline).

Definition usage : CompletedProcess :=
  completed 2 "" ("Usage: security [-h] [-i] [-l] [-p prompt] [-q] [-v] [command] [opt ...]" ++ newline).

Definition run : Program :=
  fun args w =>
    let items := keychain_items w in
    if negb (security_installed w) then
      (Raise (FileNotFoundError "[Errno 2] No such file or directory: '/usr/bin/security'"),
       items)
    else if existsb PyStr.has_nul args then
      (Raise (OtherException "embedded null byte"), items)
    else
      match args with
      | [_; cmd; s; service; a; account] =>
          if String.eqb cmd "delete-generic-password"
             && String.eqb s "-s" && String.eqb a "-a" then
            match items !! (service, account) with
            | Some _ =>
                (Return (completed 0 ("password has been deleted." ++ newline) ""),
                 delete (service, account) items)
            | None => (Return not_found, items)
            end
          else if String.eqb cmd "find-generic-password"
                  && String.eqb s "-s" && String.eqb a "-a" then
            match items !! (service, account) with
            | Some _ =>
                (Return (completed 0 ("keychain: login.keychain-db" ++ newline) ""),
                 items)
            | None => (Return not_found, items)
            end
          else (Return usage, items)
      | [_; cmd; s; service; a; account; w_flag] =>
          if String.eqb cmd "find-generic-password"
             && String.eqb s "-s" && String.eqb a "-a" && String.eqb w_flag "-w" then
            match items !! (service, account) with
            | Some secret => (Return (completed 0 (secret ++ newline) ""), items)
            | None => (Return not_found, items)
            end
          else (Return usage, items)
      | [_; cmd; s; service; a; account; w_flag; secret; u_flag] =>
          if String.eqb cmd "add-generic-password"
             && String.eqb s "-s" && String.eqb a "-a"
             && String.eqb w_flag "-w" && String.eqb u_flag "-U" then
            (Return (completed 0 "" ""), <[(service, account) := secret]> items)
          else (Return usage, items)
      | _ => (Return usage, items)
      end.

End Security.

(* ===================================================================== *)
(** * icloud_client.py: ICloudClient *)
(* ===================================================================== *)

Module ICloudClient.

Record t : Type := {
  keychain : KeychainManager.t;
  _api : option PyiCloudService;
  _username : option string;
}.

(** [ICloudClient()] *)
Definition new : t :=
  {| keychain := KeychainManager.new; _api := None; _username := None |}.

Definition State : Type := (t * World)%type.

Definition io {A : Type} (m : Py World A) : Py State A :=
  zoom snd (fun w (s : State) => (fst s, w)) m.

(** A method of [self.keychain]. *)
Definition on_keychain {A : Type} (m : Py KeychainManager.State A) : Py State A :=
  zoom (fun s : State => (keychain (fst s), snd s))
       (fun (k : KeychainManager.State) (s : State) =>
          ({| keychain := fst k; _api := _api (fst s);
              _username := _username (fst s) |}, snd k))
       m.

(** [self._api = v] *)
Definition set_api (v : option PyiCloudService) : Py State unit :=
  fun s => (Return tt,
            ({| keychain := keychain (fst s); _api := v;
                _username := _username (fst s) |}, snd s)).

(** [self._username = v] *)
Definition set_username (v : option string) : Py State unit :=
  fun s => (Return tt,
            ({| keychain := keychain (fst s); _api := _api (fst s);
                _username := v |}, snd s)).

(** The property [api]. *)
Definition api : Py State PyiCloudService :=
  fun s =>
    match _api (fst s) with
    | None =>
        (Raise (AuthenticationError
                  "Not authenticated. Run 'hide-my-email setup' first."), s)
    | Some a => (Return a, s)
    end.

(** [COOKIE_DIR.mkdir(parents=True, exist_ok=True)] *)
Definition mkdir_cookie_dir : Py World unit := log Ev_mkdir.

(** [(COOKIE_DIR / name).exists()] *)
Definition cookie_exists (name : string) : Py World bool :=
  fun w => (Return (bool_decide (is_Some (session_dir w !! name))),
            log_event (Ev_exists name) w).

(** [shutil.rmtree(path)] for a directory, [path.unlink()] for a file. *)
Definition cookie_remove (name : string) : Py World unit :=
  fun w => (Return tt,
            set_session_dir (delete name (session_dir w)) (log_event (Ev_remove name) w)).

Section WithEnvironment.
Variable LA : LocalAuthentication.
Variable security : Program.
Variable icloud : PyiCloud.

(** [PyiCloudService(apple_id=..., password=..., cookie_directory=str(COOKIE_DIR))] *)
Definition PyiCloudService_new (apple_id password : string) : Py World PyiCloudService :=
  fun w =>
    let '(r, d) := icloud_login icloud apple_id password w in
    let w' := set_session_dir d (log_event (Ev_login apple_id password) w) in
    match r with
    | Return _ =>
        (Return {| apple_id := apple_id; password := password;
                   created_at := length (trace w) |}, w')
    | Raise e => (Raise e, w')
    end.

(** [client.requires_2fa] *)
Definition requires_2fa (client : PyiCloudService) : Py World bool :=
  ask (Ev_requires_2fa client) (icloud_requires_2fa icloud client).

(** [client.validate_2fa_code(code)] *)
Definition validate_2fa_code (client : PyiCloudService) (code : string) : Py World bool :=
  ask_session (Ev_validate_2fa_code client code)
    (icloud_validate_2fa_code icloud client code).

(** [client.is_trusted_session] *)
Definition is_trusted_session (client : PyiCloudService) : Py World bool :=
  ask (Ev_is_trusted_session client) (icloud_is_trusted_session icloud client).

(** [client.trust_session()] *)
Definition trust_session (client : PyiCloudService) : Py World bool :=
  ask_session (Ev_trust_session client) (icloud_trust_session icloud client).

(** [twofa_callback()] *)
Definition call_twofa_callback (callback : World -> Outcome string) : Py World string :=
  ask Ev_twofa_callback callback.

(** [authenticate(username, password=None, twofa_callback=None)] *)
Definition authenticate (username : string) (password : option string)
    (twofa_callback : option (World -> Outcome string)) : Py State bool :=
  set_username (Some username) ;;
  password <- match password with
              | None =>
                  stored <- on_keychain
                              (KeychainManager.get_password LA security username
                                 "Authenticate to access iCloud credentials") ;;
                  match stored with
                  | None =>
                      raise (CredentialsNotFoundError
                               "No stored credentials found. Run 'hide-my-email setup' first.")
                  | Some p => ret p
                  end
              | Some p => ret p
              end ;;
  io mkdir_cookie_dir ;;
  client <- try_except
              (io (PyiCloudService_new username password))
              (fun e =>
                 match e with
                 | PyiCloudFailedLoginException _ =>
                     Some (raise (AuthenticationError ("Login failed: " ++ exn_str e)))
                 | _ => None
                 end) ;;
  set_api (Some client) ;;
  needs_2fa <- io (requires_2fa client) ;;
  (if needs_2fa then
     match twofa_callback with
     | None => raise (TwoFactorRequiredError "2FA required but no callback provided")
     | Some callback =>
         code <- io (call_twofa_callback callback) ;;
         valid <- io (validate_2fa_code client code) ;;
         if negb valid then raise (AuthenticationError "Invalid 2FA code")
         else
           trusted <- io (is_trusted_session client) ;;
           if negb trusted then io (trust_session client) ;; ret tt
           else ret tt
     end
   else ret tt) ;;
  ret true.

(** [is_session_valid(username)] *)
Definition is_session_valid (username : string) : Py State bool :=
  stored <- on_keychain (KeychainManager.has_password security username) ;;
  if negb stored then ret false
  else
    cookie_file <- io (cookie_exists username) ;;
    if negb cookie_file then ret false
    else
      verdict <- try_except
                   (password <- on_keychain
                                  (KeychainManager.get_password LA security username
                                     "Check iCloud session") ;;
                    match password with
                    | Some p =>
                        if PyStr.truthy p then
                          client <- io (PyiCloudService_new username p) ;;
                          set_api (Some client) ;;
                          set_username (Some username) ;;
                          needs_2fa <- io (requires_2fa client) ;;
                          ret (Some (negb needs_2fa))
                        else ret None
                    | None => ret None
                    end)
                   (fun _ => Some (ret None)) ;;
      match verdict with
      | Some valid => ret valid
      | None => ret false
      end.

(** [clear_session(username)] *)
Definition clear_session (username : string) : Py State unit :=
  cookie_path <- io (cookie_exists username) ;;
  (if cookie_path then io (cookie_remove username) else ret tt) ;;
  set_api None ;;
  set_username None.

End WithEnvironment.
End ICloudClient.

(* ===================================================================== *)
(** * Vocabulary of the statements *)
(* ===================================================================== *)

(** The calls made between the world [w] and a later world [w']. *)
Definition events_since (w w' : World) : list Event :=
  drop (length (trace w)) (trace w').

(** The calls that reach the remote service. *)
Definition remote_event (e : Event) : bool :=
  match e with
  | Ev_login _ _ | Ev_requires_2fa _ | Ev_validate_2fa_code _ _
  | Ev_is_trusted_session _ | Ev_trust_session _ => true
  | _ => false
  end.

(** The gate at the world [w], as [get_password] meets it. *)
Definition gate_unavailable (LA : LocalAuthentication) (w : World) : Prop :=
  exists w1, touchid.is_available LA w = (Return false, w1).

Definition gate_granted (LA : LocalAuthentication) (prompt : string) (w : World) : Prop :=
  exists w1 error w2,
    touchid.is_available LA w = (Return true, w1)
    /\ touchid.authenticate LA prompt w1 = (Return (true, error), w2).

Definition gate_denied (LA : LocalAuthentication) (prompt : string) (w : World) : Prop :=
  exists w1 error w2,
    touchid.is_available LA w = (Return true, w1)
    /\ touchid.authenticate LA prompt w1 = (Return (false, error), w2).

(** The gate lets the caller through: it is not available, or it grants. *)
Definition gate_open (LA : LocalAuthentication) (prompt : string) (w : World) : Prop :=
  gate_unavailable LA w \/ gate_granted LA prompt w.

(** The argument lists of the four invocations of the utility. *)
Definition find_password_args (account : string) : list string :=
  ["/usr/bin/security"; "find-generic-password"; "-s"; SERVICE_NAME; "-a"; account; "-w"].

Definition find_item_args (account : string) : list string :=
  ["/usr/bin/security"; "find-generic-password"; "-s"; SERVICE_NAME; "-a"; account].

Definition delete_args (account : string) : list string :=
  ["/usr/bin/security"; "delete-generic-password"; "-s"; SERVICE_NAME; "-a"; account].

Definition add_args (account secret : string) : list string :=
  ["/usr/bin/security"; "add-generic-password"; "-s"; SERVICE_NAME; "-a"; account;
   "-w"; secret; "-U"].

(** The world after one run of a program. *)
Definition after_run (security : Program) (args : list string) (w : World) : World :=
  set_keychain_items (snd (security args w)) (log_events [Ev_subprocess_run args] w).

(** A property of the session directory that every operation of the remote
    client preserves. *)
Definition preserved_by (icloud : PyiCloud) (I : gmap string CookieEntry -> Prop) : Prop :=
  (forall username secret w,
      I (session_dir w) -> I (snd (icloud_login icloud username secret w)))
  /\ (forall client code w,
        I (session_dir w) -> I (snd (icloud_validate_2fa_code icloud client code w)))
  /\ (forall client w,
        I (session_dir w) -> I (snd (icloud_trust_session icloud client w))).

(** The computation [m] keeps the property [P] of the state, however it
    ends. *)
Definition keeps {S A : Type} (P : S -> Prop) (m : Py S A) : Prop :=
  forall s, P s -> P (snd (m s)).

(** The world in which [is_session_valid] calls [get_password]: after the
    existence checks of the keychain item and of the cookie file. *)
Definition probe_world (security : Program) (username : string) (w : World) : World :=
  log_event (Ev_exists username) (after_run security (find_item_args username) w).

(* ===================================================================== *)
(** * Concrete environments *)
(* ===================================================================== *)

(** Small worlds, gates and remote services on which the statements are
    evaluated. *)
Module Demo.

Definition alice : string := "alice@example.com".

(** An empty keychain, an empty session directory, nothing called yet. *)
Definition fresh : World :=
  {| keychain_items := ∅; security_installed := true;
     session_dir := ∅; trace := [] |}.

(** The cookie file of an earlier login of [alice] is still on disk. *)
Definition with_old_session : World :=
  set_session_dir {[ alice := CookieFile ]} fresh.

(** [alice]'s credential is in the keychain and her cookie file on disk. *)
Definition set_up : World :=
  set_keychain_items {[ (SERVICE_NAME, alice) := "p@ss1" ]} with_old_session.

(** Touch ID is there and the user passes. *)
Definition touch_id_granting : LocalAuthentication :=
  {| la_importable := fun _ => true;
     la_canEvaluatePolicy := fun _ => Return (true, None);
     la_evaluatePolicy := fun _ _ => Return (true, None) |}.

(** Touch ID is there and the user cancels the prompt. *)
Definition touch_id_denying : LocalAuthentication :=
  {| la_importable := fun _ => true;
     la_canEvaluatePolicy := fun _ => Return (true, None);
     la_evaluatePolicy := fun _ _ => Return (false, Some "Authentication canceled.") |}.

(** No LocalAuthentication framework on this machine. *)
Definition no_touch_id : LocalAuthentication :=
  {| la_importable := fun _ => false;
     la_canEvaluatePolicy := fun _ => Return (false, None);
     la_evaluatePolicy := fun _ _ => Return (false, None) |}.

(** A service that accepts every login, asks for a second factor, takes
    [code] as the valid one, and whose client writes the cookie file when
    the session is trusted. *)
Definition icloud_2fa (code : string) : PyiCloud :=
  {| icloud_login := fun _ _ w => (Return tt, session_dir w);
     icloud_requires_2fa := fun _ _ => Return true;
     icloud_validate_2fa_code := fun _ c w => (Return (String.eqb c code), session_dir w);
     icloud_is_trusted_session := fun _ _ => Return false;
     icloud_trust_session :=
       fun client w => (Return true, <[apple_id client := CookieFile]> (session_dir w)) |}.

(** A service that accepts every login on a trusted session. *)
Definition icloud_trusted : PyiCloud :=
  {| icloud_login :=
       fun username _ w => (Return tt, <[username := CookieFile]> (session_dir w));
     icloud_requires_2fa := fun _ _ => Return false;
     icloud_validate_2fa_code := fun _ _ w => (Return true, session_dir w);
     icloud_is_trusted_session := fun _ _ => Return true;
     icloud_trust_session := fun _ w => (Return true, session_dir w) |}.

(** Has the session been trusted so far? *)
Definition trusted_so_far (w : World) : bool :=
  existsb (fun e => match e with Ev_trust_session _ => true | _ => false end) (trace w).

(** A service that asks for the second factor [code] until a session has
    been trusted, and whose client writes the cookie file on trust. *)
Definition icloud_remembering (code : string) : PyiCloud :=
  {| icloud_login := fun _ _ w => (Return tt, session_dir w);
     icloud_requires_2fa := fun _ w => Return (negb (trusted_so_far w));
     icloud_validate_2fa_code := fun _ c w => (Return (String.eqb c code), session_dir w);
     icloud_is_trusted_session := fun _ w => Return (trusted_so_far w);
     icloud_trust_session :=
       fun client w => (Return true, <[apple_id client := CookieFile]> (session_dir w)) |}.

(** A service that refuses every login. *)
Definition icloud_refusing : PyiCloud :=
  {| icloud_login :=
       fun _ _ w => (Raise (PyiCloudFailedLoginException "Invalid email/password combination."),
                     session_dir w);
     icloud_requires_2fa := fun _ _ => Return false;
     icloud_validate_2fa_code := fun _ _ w => (Return false, session_dir w);
     icloud_is_trusted_session := fun _ _ => Return false;
     icloud_trust_session := fun _ w => (Return false, session_dir w) |}.

(** The service cannot be reached. *)
Definition icloud_offline : PyiCloud :=
  {| icloud_login :=
       fun _ _ w => (Raise (OtherException "Connection refused"), session_dir w);
     icloud_requires_2fa := fun _ _ => Raise (OtherException "Connection refused");
     icloud_validate_2fa_code :=
       fun _ _ w => (Raise (OtherException "Connection refused"), session_dir w);
     icloud_is_trusted_session := fun _ _ => Raise (OtherException "Connection refused");
     icloud_trust_session :=
       fun _ w => (Raise (OtherException "Connection refused"), session_dir w) |}.

(** The user types the code [code]. *)
Definition typing (code : string) : World -> Outcome string := fun _ => Return code.

End Demo.

(* ===================================================================== *)
(** * config.py *)
(* ===================================================================== *)

Module config.

(** The configuration dictionary: keys to values.  A value is a string or
    [null], as the accessors' annotations have it ([str | None]). *)
Abbreviation Dict := (gmap string (option string)).

(** What [json.loads] gives on a text that is JSON: an object, or a value of
    another kind (a list, a number, ...). *)
Inductive Json : Type :=
| JObject (d : Dict)
| JNotObject.

(** What is at [~/.hidemyemail/config.json]. *)
Inductive FileContent : Type :=
| Missing                    (* [CONFIG_FILE.exists()] is [False] *)
| Unreadable (msg : string)  (* [read_text()] raises [IOError] *)
| Garbled                    (* the text is not JSON: [json.JSONDecodeError] *)
| Document (v : Json).       (* the text is the JSON value [v] *)

(** The part of the disk the module works on.  Creating the directory and
    writing the file always succeed. *)
Record Disk : Type := {
  config_dir : bool;           (* does [~/.hidemyemail] exist? *)
  config_file : FileContent;
}.

(** [ensure_config_dir()] *)
Definition ensure_config_dir : Py Disk unit :=
  fun d => (Return tt, {| config_dir := true; config_file := config_file d |}).

(** [get_config()]: on a text that is JSON but not an object the value
    returned is not a dictionary. *)
Definition get_config : Py Disk Json :=
  fun d =>
    match config_file d with
    | Missing => (Return (JObject ∅), d)
    | Unreadable _ => (Return (JObject ∅), d)
    | Garbled => (Return (JObject ∅), d)
    | Document v => (Return v, d)
    end.

(** [save_config(config)]: [json.loads(json.dumps(config))] is [config]. *)
Definition save_config (config : Dict) : Py Disk unit :=
  ensure_config_dir ;;
  fun d => (Return tt, {| config_dir := config_dir d;
                          config_file := Document (JObject config) |}).

(** [get_default_username()]: [get_config().get("default_username")]. *)
Definition get_default_username : Py Disk (option string) :=
  config <- get_config ;;
  match config with
  | JObject d =>
      ret (match d !! "default_username" with
           | Some value => value
           | None => None
           end)
  | JNotObject => raise (OtherException "AttributeError: object has no attribute 'get'")
  end.

(** [set_default_username(username)] *)
Definition set_default_username (username : string) : Py Disk unit :=
  config <- get_config ;;
  match config with
  | JObject d => save_config (<["default_username" := Some username]> d)
  | JNotObject => raise (OtherException "TypeError: object does not support item assignment")
  end.

(** [clear_default_username()]: [config.pop("default_username", None)]. *)
Definition clear_default_username : Py Disk unit :=
  config <- get_config ;;
  match config with
  | JObject d => save_config (delete "default_username" d)
  | JNotObject => raise (OtherException "AttributeError: object has no attribute 'pop'")
  end.

End config.

(* ===================================================================== *)
(** * The layers above: more strings, more exceptions, a wider state *)
(* ===================================================================== *)

Module PyText.

(** [c.lower()] for one character below U+0100: the letters A-Z and the
    capital letters of Latin-1 (U+00C0..U+00DE but the multiplication sign)
    move up by 32. *)
Definition lower_char (c : ascii) : ascii :=
  let n := N_of_ascii c in
  if ((65 <=? n) && (n <=? 90) || (192 <=? n) && (n <=? 222) && negb (n =? 215))%N
  then ascii_of_N (n + 32)
  else c.

(** [s.lower()] *)
Fixpoint lower (s : string) : string :=
  match s with
  | EmptyString => EmptyString
  | String c s' => String (lower_char c) (lower s')
  end.

(** ["\n"] *)
Definition newline : string := String "010"%char EmptyString.

End PyText.

(** The exceptions of the service and of the commands, on top of those of
    the modules above. *)
Inductive AppExn : Type :=
| Core (e : Exn)
| AliasOperationError (msg : string)
| Exit (code : Z)          (* [typer.Exit(code)] *)
| Abort.                   (* [typer.Abort()] *)

(** [str(e)], where the service formats an exception it caught. *)
Definition app_exn_str (e : AppExn) : string :=
  match e with
  | Core e => exn_str e
  | AliasOperationError m => m
  | Exit _ => ""
  | Abort => ""
  end.

Inductive Result (A : Type) : Type :=
| Ok (a : A)
| Err (e : AppExn).
Arguments Ok {A} a.
Arguments Err {A} e.

(** A computation of the service or of a command; as before, the state
    reached at a [raise] is kept. *)
Definition App (S A : Type) : Type := S -> Result A * S.

Module AppM.

Definition ret {S A : Type} (a : A) : App S A := fun s => (Ok a, s).

Definition raise {S A : Type} (e : AppExn) : App S A := fun s => (Err e, s).

Definition bind {S A B : Type} (m : App S A) (k : A -> App S B) : App S B :=
  fun s =>
    match m s with
    | (Ok a, s') => k a s'
    | (Err e, s') => (Err e, s')
    end.

Definition try_except {S A : Type} (body : App S A)
    (handler : AppExn -> option (App S A)) : App S A :=
  fun s =>
    match body s with
    | (Ok a, s') => (Ok a, s')
    | (Err e, s') =>
        match handler e with
        | Some h => h s'
        | None => (Err e, s')
        end
    end.

(** A computation of the modules above, run on a part of the state. *)
Definition core {S T A : Type} (get : S -> T) (put : T -> S -> S) (m : Py T A) : App S A :=
  fun s =>
    match m (get s) with
    | (Return a, t') => (Ok a, put t' s)
    | (Raise e, t') => (Err (Core e), put t' s)
    end.

End AppM.

Declare Scope app_scope.
Delimit Scope app_scope with app.
Notation "x <- m ;; k" := (AppM.bind m (fun x => k))
  (at level 100, m at next level, right associativity) : app_scope.
Notation "m ;; k" := (AppM.bind m (fun _ => k))
  (at level 100, right associativity) : app_scope.

(** A dictionary of the alias API, read through [.get(key, default)]: the
    keys the code reads, each with a value of the type its use assumes, and
    whether the dictionary has other keys besides. *)
Module ApiData.

Record t : Type := {
  anonymousId : option string;
  hme : option string;
  label : option string;
  note : option string;
  createTimestamp : option Z;
  isActive : option bool;
  forwardToEmail : option string;
  domain : option string;
  other_keys : bool;
}.

(** [key in data] *)
Definition has {A : Type} (value : option A) : bool :=
  match value with Some _ => true | None => false end.

(** [bool(data)]: a dictionary is truthy when it has a key. *)
Definition truthy (d : t) : bool :=
  has (anonymousId d) || has (hme d) || has (label d) || has (note d)
  || has (createTimestamp d) || has (isActive d) || has (forwardToEmail d)
  || has (domain d) || other_keys d.

End ApiData.

(** What the console shows and asks, and the calls of the alias API. *)
Inductive Call : Type :=
| Print (text : string)                       (* console.print(text) *)
| Status (text : string)                      (* with console.status(text): *)
| Ask (text : string) (hidden : bool)         (* Prompt.ask(text, password=hidden) *)
| Confirm (text : string)                     (* Confirm.ask(text) *)
| Api_iter                                    (* for data in client.hidemyemail *)
| Api_generate
| Api_reserve (email label note : string)
| Api_update_metadata (anonymous_id label note : string)
| Api_deactivate (anonymous_id : string)
| Api_reactivate (anonymous_id : string)
| Api_delete (anonymous_id : string).

(** The state a command runs on: the world and the configuration on disk,
    what was shown and called so far (oldest first), and the two objects a
    command creates, its [ICloudClient] and its own [KeychainManager]. *)
Record Machine : Type := {
  world : World;
  disk : config.Disk;
  journal : list Call;
  local_client : ICloudClient.t;
  local_keychain : KeychainManager.t;
}.

Definition set_world (w : World) (m : Machine) : Machine :=
  {| world := w; disk := disk m; journal := journal m;
     local_client := local_client m; local_keychain := local_keychain m |}.

Definition set_disk (d : config.Disk) (m : Machine) : Machine :=
  {| world := world m; disk := d; journal := journal m;
     local_client := local_client m; local_keychain := local_keychain m |}.

Definition record_call (c : Call) (m : Machine) : Machine :=
  {| world := world m; disk := disk m; journal := journal m ++ [c];
     local_client := local_client m; local_keychain := local_keychain m |}.

Definition set_local_client (c : ICloudClient.t) (m : Machine) : Machine :=
  {| world := world m; disk := disk m; journal := journal m;
     local_client := c; local_keychain := local_keychain m |}.

Definition set_local_keychain (k : KeychainManager.t) (m : Machine) : Machine :=
  {| world := world m; disk := disk m; journal := journal m;
     local_client := local_client m; local_keychain := k |}.

(** The alias service of [pyicloud], reached through [client.hidemyemail]. *)
Record AliasAPI : Type := {
  (** iterating the service: the dictionaries it yields, and the exception
      that ends the iteration when it does not end by itself *)
  api_iter : PyiCloudService -> Machine -> list ApiData.t * option Exn;
  api_generate : PyiCloudService -> Machine -> Outcome ApiData.t;
  (** [None] is Python's [None] *)
  api_reserve :
    PyiCloudService -> string -> string -> string -> Machine -> Outcome (option ApiData.t);
  (** the four calls below: the truthiness of what the service returns *)
  api_update_metadata :
    PyiCloudService -> string -> string -> string -> Machine -> Outcome bool;
  api_deactivate : PyiCloudService -> string -> Machine -> Outcome bool;
  api_reactivate : PyiCloudService -> string -> Machine -> Outcome bool;
  api_delete : PyiCloudService -> string -> Machine -> Outcome bool;
}.

(** The person at the terminal. *)
Record Terminal : Type := {
  prompt_answer : string -> bool -> Machine -> string;  (* Prompt.ask(text, password=...) *)
  confirm_answer : string -> Machine -> bool;           (* Confirm.ask(text) *)
  (** the answer to "Enter 2FA code from your device", asked from inside
      [authenticate], where it is recorded as [Ev_twofa_callback] *)
  twofa_answer : World -> Outcome string;
}.

Module Console.

(** [console.print(text)] *)
Definition print (text : string) : App Machine unit :=
  fun m => (Ok tt, record_call (Print text) m).

(** Entering [with console.status(text):] *)
Definition status (text : string) : App Machine unit :=
  fun m => (Ok tt, record_call (Status text) m).

Section WithTerminal.
Variable terminal : Terminal.

(** [Prompt.ask(text, password=hidden)] *)
Definition ask (text : string) (hidden : bool) : App Machine string :=
  fun m => (Ok (prompt_answer terminal text hidden m), record_call (Ask text hidden) m).

(** [Confirm.ask(text)] *)
Definition confirm (text : string) : App Machine bool :=
  fun m => (Ok (confirm_answer terminal text m), record_call (Confirm text) m).

End WithTerminal.
End Console.

(** Running the modules above from a command. *)
Module Run.

(** on the world alone *)
Definition on_world {A : Type} (m : Py World A) : App Machine A :=
  AppM.core world set_world m.

(** on the configuration *)
Definition on_disk {A : Type} (m : Py config.Disk A) : App Machine A :=
  AppM.core disk set_disk m.

(** a method of the command's [ICloudClient] *)
Definition on_client {A : Type} (m : Py ICloudClient.State A) : App Machine A :=
  AppM.core (fun s => (local_client s, world s))
    (fun t s => set_local_client (fst t) (set_world (snd t) s)) m.

(** a method of the command's [KeychainManager] *)
Definition on_keychain {A : Type} (m : Py KeychainManager.State A) : App Machine A :=
  AppM.core (fun s => (local_keychain s, world s))
    (fun t s => set_local_keychain (fst t) (set_world (snd t) s)) m.

End Run.

(* ===================================================================== *)
(** * hidemyemail.py *)
(* ===================================================================== *)

(** The moment an alias was created: [datetime.fromtimestamp(t)] for a
    number of seconds, [datetime.fromtimestamp(t / 1000)] for a number of
    milliseconds, or [datetime.now()].  The conversion itself (time zone,
    range of years) is the library's. *)
Inductive Moment : Type :=
| AtSeconds (t : Z)
| AtMilliseconds (t : Z)
| Now.

Module EmailAlias.

Record t : Type := {
  anonymous_id : string;
  email : string;
  label : string;
  note : string;
  created_at : Moment;
  is_active : bool;
  forward_to : string;
  domain : string;
}.

(** [d.get(key, default)] *)
Definition get {A : Type} (value : option A) (default : A) : A :=
  match value with Some v => v | None => default end.

(** [EmailAlias.from_api(data)] *)
Definition from_api (data : ApiData.t) : t :=
  let timestamp := get (ApiData.createTimestamp data) 0 in
  {| anonymous_id := get (ApiData.anonymousId data) "";
     email := get (ApiData.hme data) "";
     label := get (ApiData.label data) "";
     note := get (ApiData.note data) "";
     created_at :=
       (if 1000000000000 <? timestamp then AtMilliseconds timestamp
        else if timestamp =? 0 then Now
        else AtSeconds timestamp);
     is_active := get (ApiData.isActive data) true;
     forward_to := get (ApiData.forwardToEmail data) "";
     domain := get (ApiData.domain data) "" |}.

End EmailAlias.

(** A generator that has been started: the values it yields, in order, and
    the exception that ends it when it does not end by itself. *)
Definition Generator (A : Type) : Type := (list A * option AppExn)%type.

(** [list(generator)] *)
Definition list_of {S A : Type} (g : Generator A) : App S (list A) :=
  match snd g with
  | None => AppM.ret (fst g)
  | Some e => AppM.raise e
  end.

Module HideMyEmailService.
Local Open Scope app_scope.

Section WithAPI.
Variable api : AliasAPI.

(** [self.client.hidemyemail]: the property [api] of the client, then the
    alias service of that client. *)
Definition hidemyemail : App Machine PyiCloudService :=
  Run.on_client ICloudClient.api.

(** A call of the alias service on the client [c]. *)
Definition call {A : Type} (event : Call) (answer : Machine -> Outcome A) : App Machine A :=
  fun m =>
    match answer m with
    | Return a => (Ok a, record_call event m)
    | Raise e => (Err (Core e), record_call event m)
    end.

(** [list_all()], started. *)
Definition list_all : App Machine (Generator EmailAlias.t) :=
  AppM.try_except
    (service <- hidemyemail ;;
     fun m =>
       let '(items, ending) := api_iter api service m in
       (Ok (map EmailAlias.from_api items,
            match ending with Some e => Some (Core e) | None => None end),
        record_call Api_iter m))
    (fun e => Some (AppM.ret ([], Some e))).

(** The test of [search], on the lowered query. *)
Definition matches (query_lower : string) (alias : EmailAlias.t) : bool :=
  PyStr.contains query_lower (PyText.lower (EmailAlias.label alias))
  || PyStr.contains query_lower (PyText.lower (EmailAlias.email alias))
  || PyStr.contains query_lower (PyText.lower (EmailAlias.note alias)).

(** [search(query)], started. *)
Definition search (query : string) : App Machine (Generator EmailAlias.t) :=
  let query_lower := PyText.lower query in
  aliases <- list_all ;;
  AppM.ret (filter (fun alias => matches query_lower alias = true) (fst aliases),
            snd aliases).

(** [get_by_email_or_id(identifier)]: the loop returns at the first match,
    before the rest of the iteration runs. *)
Definition get_by_email_or_id (identifier : string) : App Machine (option EmailAlias.t) :=
  aliases <- list_all ;;
  match find (fun alias =>
                String.eqb (EmailAlias.email alias) identifier
                || String.eqb (EmailAlias.anonymous_id alias) identifier)
             (fst aliases) with
  | Some alias => AppM.ret (Some alias)
  | None =>
      match snd aliases with
      | Some e => AppM.raise e
      | None => AppM.ret None
      end
  end.

(** [create(label, note="")] *)
Definition create (label note : string) : App Machine EmailAlias.t :=
  AppM.try_except
    (service <- hidemyemail ;;
     generated <- call Api_generate (api_generate api service) ;;
     let email := EmailAlias.get (ApiData.hme generated) "" in
     if negb (PyStr.truthy email) then
       AppM.raise (AliasOperationError "Failed to generate email address")
     else
       service <- hidemyemail ;;
       result <- call (Api_reserve email label note)
                   (api_reserve api service email label note) ;;
       match result with
       | None => AppM.raise (AliasOperationError "Failed to reserve email alias")
       | Some data =>
           if negb (ApiData.truthy data) then
             AppM.raise (AliasOperationError "Failed to reserve email alias")
           else AppM.ret (EmailAlias.from_api data)
       end)
    (fun e =>
       match e with
       | AliasOperationError _ => Some (AppM.raise e)
       | _ =>
           Some (AppM.raise
                   (AliasOperationError ("Failed to create alias: " ++ app_exn_str e)))
       end).

(** [update(anonymous_id, label, note)] *)
Definition update (anonymous_id label note : string) : App Machine bool :=
  AppM.try_except
    (service <- hidemyemail ;;
     call (Api_update_metadata anonymous_id label note)
       (api_update_metadata api service anonymous_id label note))
    (fun _ => Some (AppM.ret false)).

(** [deactivate(anonymous_id)] *)
Definition deactivate (anonymous_id : string) : App Machine bool :=
  AppM.try_except
    (service <- hidemyemail ;;
     call (Api_deactivate anonymous_id) (api_deactivate api service anonymous_id))
    (fun _ => Some (AppM.ret false)).

(** [reactivate(anonymous_id)] *)
Definition reactivate (anonymous_id : string) : App Machine bool :=
  AppM.try_except
    (service <- hidemyemail ;;
     call (Api_reactivate anonymous_id) (api_reactivate api service anonymous_id))
    (fun _ => Some (AppM.ret false)).

(** [delete(anonymous_id)] *)
Definition delete (anonymous_id : string) : App Machine bool :=
  AppM.try_except
    (service <- hidemyemail ;;
     call (Api_delete anonymous_id) (api_delete api service anonymous_id))
    (fun _ => Some (AppM.ret false)).

End WithAPI.
End HideMyEmailService.

(* ===================================================================== *)
(** * commands/auth.py *)
(* ===================================================================== *)

(** The texts the commands print are kept as written, with their markup;
    the check mark U+2713 stands in them as its UTF-8 bytes. *)
Module auth.
Local Open Scope app_scope.

(** [keychain = KeychainManager()] *)
Definition new_keychain : App Machine unit :=
  fun m => (Ok tt, set_local_keychain KeychainManager.new m).

(** [client = ICloudClient()] *)
Definition new_client : App Machine unit :=
  fun m => (Ok tt, set_local_client ICloudClient.new m).

Definition setup_complete : string :=
  PyText.newline
  ++ "[bold green]Setup complete![/bold green] Use 'hide-my-email list' to see your email aliases.".

Section WithEnvironment.
Variable LA : LocalAuthentication.
Variable security : Program.
Variable icloud : PyiCloud.
Variable terminal : Terminal.

(** [touchid_available()] *)
Definition touchid_available : App Machine bool :=
  Run.on_world (touchid.is_available LA).

(** [setup()] *)
Definition setup : App Machine unit :=
  Console.print ("[bold blue]Hide My Email CLI Setup[/bold blue]" ++ PyText.newline) ;;
  available <- touchid_available ;;
  (if available then
     Console.print
       "[green]✓[/green] Touch ID is available and will be used for authentication"
   else
     Console.print
       ("[yellow]![/yellow] Touch ID not available. "
        ++ "Credentials will be stored in Keychain without biometric protection.") ;;
     go_on <- Console.confirm terminal "Continue without Touch ID protection?" ;;
     if negb go_on then AppM.raise Abort else AppM.ret tt) ;;
  username <- Console.ask terminal "Apple ID (email)" false ;;
  password <- Console.ask terminal "Password" true ;;
  new_keychain ;;
  require_biometry <- touchid_available ;;
  stored <- Run.on_keychain
              (KeychainManager.store_password security username password
                 require_biometry) ;;
  (if negb stored then
     last_error <- Run.on_keychain KeychainManager.last_error ;;
     let error_msg :=
       match last_error with
       | Some e => PyStr.or_else e "Unknown error"
       | None => "Unknown error"
       end in
     Console.print ("[red]Failed to store credentials in Keychain:[/red] " ++ error_msg) ;;
     AppM.raise (Exit 1)
   else AppM.ret tt) ;;
  Console.print "[green]✓[/green] Credentials stored securely" ;;
  Run.on_disk (config.set_default_username username) ;;
  Console.print ("[green]✓[/green] Set " ++ username ++ " as default account") ;;
  Console.print (PyText.newline ++ "Testing iCloud authentication...") ;;
  new_client ;;
  AppM.try_except
    (Run.on_client
       (ICloudClient.authenticate LA security icloud username (Some password)
          (Some (twofa_answer terminal))) ;;
     Console.print "[green]✓[/green] Successfully authenticated with iCloud" ;;
     Console.print setup_complete)
    (fun e =>
       match e with
       | Core (TwoFactorRequiredError _) =>
           Some (Console.print "[green]✓[/green] 2FA verified and session trusted" ;;
                 Console.print setup_complete)
       | Core (AuthenticationError msg) | Core (CredentialsNotFoundError msg) =>
           Some (Console.print ("[red]Authentication failed:[/red] " ++ msg) ;;
                 Run.on_keychain (KeychainManager.delete_password security username) ;;
                 Run.on_disk config.clear_default_username ;;
                 AppM.raise (Exit 1))
       | _ => None
       end).


(** [status()] *)
Definition status : App Machine unit :=
  username <- Run.on_disk config.get_default_username ;;
  match username with
  | None =>
      Console.print "[yellow]No account configured.[/yellow]" ;;
      Console.print "Run 'hide-my-email setup' to configure your Apple ID."
  | Some username =>
      Console.print ("Account: [cyan]" ++ username ++ "[/cyan]") ;;
      new_keychain ;;
      stored <- Run.on_keychain (KeychainManager.has_password security username) ;;
      (if stored then Console.print "Credentials: [green]Stored in Keychain[/green]"
       else Console.print "Credentials: [red]Not found[/red]") ;;
      new_client ;;
      valid <- Run.on_client (ICloudClient.is_session_valid LA security icloud username) ;;
      (if valid then Console.print "Session: [green]Valid[/green]"
       else Console.print "Session: [yellow]Expired or missing[/yellow]") ;;
      available <- touchid_available ;;
      if available then Console.print "Touch ID: [green]Available[/green]"
      else Console.print "Touch ID: [yellow]Not available[/yellow]"
  end.

End WithEnvironment.
End auth.

(* ===================================================================== *)
(** * commands/emails.py *)
(* ===================================================================== *)

(** The commands that look an alias up and change it. *)
Module emails.
Local Open Scope app_scope.

Section WithEnvironment.
Variable LA : LocalAuthentication.
Variable security : Program.
Variable icloud : PyiCloud.
Variable api : AliasAPI.
Variable terminal : Terminal.

(** [get_service()]: the service returned is the one of the command's
    client. *)
Definition get_service : App Machine unit :=
  username <- Run.on_disk config.get_default_username ;;
  match username with
  | None =>
      Console.print "[red]No account configured.[/red]" ;;
      Console.print "Run 'hme setup' first to configure your Apple ID." ;;
      AppM.raise (Exit 1)
  | Some username =>
      auth.new_client ;;
      AppM.try_except
        (Run.on_client
           (ICloudClient.authenticate LA security icloud username None
              (Some (twofa_answer terminal))) ;;
         AppM.ret tt)
        (fun e =>
           match e with
           | Core (CredentialsNotFoundError _) =>
               Some (Console.print "[red]No credentials found.[/red]" ;;
                     Console.print "Run 'hme setup' to configure your Apple ID." ;;
                     AppM.raise (Exit 1))
           | Core (AuthenticationError msg) | Core (TwoFactorRequiredError msg) =>
               Some (Console.print ("[red]Authentication failed:[/red] " ++ msg) ;;
                     AppM.raise (Exit 1))
           | _ => None
           end)
  end.

(** The first lines of [deactivate], [reactivate], [delete] and [update]:
    the lookup, and the exit when there is no such alias. *)
Definition look_up (email_or_id : string) : App Machine EmailAlias.t :=
  Console.status "Looking up alias..." ;;
  get_service ;;
  alias <- HideMyEmailService.get_by_email_or_id api email_or_id ;;
  match alias with
  | None =>
      Console.print ("[red]Alias not found: " ++ email_or_id ++ "[/red]") ;;
      AppM.raise (Exit 1)
  | Some alias => AppM.ret alias
  end.

(** [deactivate(email_or_id)] *)
Definition deactivate (email_or_id : string) : App Machine unit :=
  alias <- look_up email_or_id ;;
  if negb (EmailAlias.is_active alias) then
    Console.print
      ("[yellow]Alias is already inactive: " ++ EmailAlias.email alias ++ "[/yellow]")
  else
    go_on <- Console.confirm terminal
               ("Deactivate [cyan]" ++ EmailAlias.email alias ++ "[/cyan]?") ;;
    if go_on then
      Console.status "Deactivating..." ;;
      done <- HideMyEmailService.deactivate api (EmailAlias.anonymous_id alias) ;;
      if done then
        Console.print ("[green]✓[/green] Deactivated " ++ EmailAlias.email alias)
      else
        Console.print "[red]Failed to deactivate alias[/red]" ;;
        AppM.raise (Exit 1)
    else AppM.ret tt.

(** [reactivate(email_or_id)] *)
Definition reactivate (email_or_id : string) : App Machine unit :=
  alias <- look_up email_or_id ;;
  if EmailAlias.is_active alias then
    Console.print
      ("[yellow]Alias is already active: " ++ EmailAlias.email alias ++ "[/yellow]")
  else
    Console.status "Reactivating..." ;;
    done <- HideMyEmailService.reactivate api (EmailAlias.anonymous_id alias) ;;
    if done then
      Console.print ("[green]✓[/green] Reactivated " ++ EmailAlias.email alias)
    else
      Console.print "[red]Failed to reactivate alias[/red]" ;;
      AppM.raise (Exit 1).

(** [delete(email_or_id, force=False)] *)
Definition delete (email_or_id : string) (force : bool) : App Machine unit :=
  alias <- look_up email_or_id ;;
  (if negb force then
     Console.print
       "[bold red]Warning:[/bold red] This will permanently delete the alias." ;;
     Console.print ("  Email: [cyan]" ++ EmailAlias.email alias ++ "[/cyan]") ;;
     Console.print ("  Label: " ++ EmailAlias.label alias) ;;
     go_on <- Console.confirm terminal "Are you sure?" ;;
     if negb go_on then AppM.raise Abort else AppM.ret tt
   else AppM.ret tt) ;;
  Console.status "Deleting..." ;;
  done <- HideMyEmailService.delete api (EmailAlias.anonymous_id alias) ;;
  if done then
    Console.print ("[green]✓[/green] Deleted " ++ EmailAlias.email alias)
  else
    Console.print "[red]Failed to delete alias[/red]" ;;
    AppM.raise (Exit 1).

(** [update(email_or_id, label=None, note=None)] *)
Definition update (email_or_id : string) (label note : option string)
  : App Machine unit :=
  match label, note with
  | None, None =>
      Console.print "[yellow]Specify at least --label or --note to update[/yellow]" ;;
      AppM.raise (Exit 1)
  | _, _ =>
      alias <- look_up email_or_id ;;
      let new_label := match label with Some l => l | None => EmailAlias.label alias end in
      let new_note := match note with Some n => n | None => EmailAlias.note alias end in
      Console.status "Updating..." ;;
      done <- HideMyEmailService.update api (EmailAlias.anonymous_id alias)
                new_label new_note ;;
      if done then
        Console.print ("[green]✓[/green] Updated " ++ EmailAlias.email alias) ;;
        (match label with
         | Some _ => Console.print ("  Label: " ++ new_label)
         | None => AppM.ret tt
         end) ;;
        match note with
        | Some _ => Console.print ("  Note: " ++ new_note)
        | None => AppM.ret tt
        end
      else
        Console.print "[red]Failed to update alias[/red]" ;;
        AppM.raise (Exit 1)
  end.

End WithEnvironment.
End emails.

(** The configuration file holds an object, or nothing that can be used. *)
Definition config_file_is_object_or_unusable (d : config.Disk) : Prop :=
  match config.config_file d with
  | config.Document config.JNotObject => False
  | _ => True
  end.

(** The dictionary [get_config] reads from the disk. *)
Definition dict_on_disk (d : config.Disk) : config.Dict :=
  match config.config_file d with
  | config.Document (config.JObject dict) => dict
  | _ => ∅
  end.

(** The test of [get_by_email_or_id]. *)
Definition identifies (identifier : string) (alias : EmailAlias.t) : Prop :=
  EmailAlias.email alias = identifier \/ EmailAlias.anonymous_id alias = identifier.

(** The command's client is logged in: its [_api] is the client [handle]. *)
Definition logged_in (m : Machine) (handle : PyiCloudService) : Prop :=
  ICloudClient._api (local_client m) = Some handle.

(** Everything of the machine but its journal is the same. *)
Definition same_but_journal (m m' : Machine) : Prop :=
  world m' = world m /\ disk m' = disk m
  /\ local_client m' = local_client m /\ local_keychain m' = local_keychain m.

(** The run [run], started on [m], ended with [r] and showed or called
    nothing: the journal and everything else are as they were. *)
Definition ends_quietly {A : Type} (run : Result A * Machine) (r : Result A)
    (m : Machine) : Prop :=
  fst run = r /\ journal (snd run) = journal m /\ same_but_journal m (snd run).

(** The run [run], started on [m], returned a value, after the one call
    [call] of the alias service or after none, and changed nothing else. *)
Definition returns_after_at_most {A : Type} (run : Result A * Machine) (m : Machine)
    (call : Call) : Prop :=
  (exists a, fst run = Ok a)
  /\ (journal (snd run) = journal m \/ journal (snd run) = (journal m ++ [call])%list)
  /\ same_but_journal m (snd run).

(** [isinstance(e, AuthenticationError)]: the class and its subclasses. *)
Definition is_AuthenticationError (e : Exn) : bool :=
  match e with
  | AuthenticationError _ | TwoFactorRequiredError _ | CredentialsNotFoundError _ => true
  | _ => false
  end.

(** The default account [get_default_username] reads from the disk. *)
Definition default_account (d : config.Disk) : option string :=
  match dict_on_disk d !! "default_username" with
  | Some value => value
  | None => None
  end.

(** What was shown, asked and called between the machine [m] and a later
    machine [m']. *)
Definition calls_since (m m' : Machine) : list Call :=
  drop (length (journal m)) (journal m').

(** The calls that stay with the gate. *)
Definition gate_event (e : Event) : bool :=
  match e with
  | Call_is_available | Call_authenticate _ | Ev_canEvaluatePolicy
  | Ev_evaluatePolicy _ => true
  | _ => false
  end.

(** What a lookup shows and calls: texts, and the iteration of the service. *)
Definition lookup_call (c : Call) : bool :=
  match c with
  | Print _ | Status _ | Api_iter => true
  | _ => false
  end.

(** The calls change no alias and create none. *)
Definition harmless (calls : list Call) : Prop :=
  Forall (fun c => match c with
                   | Print _ | Status _ | Ask _ _ | Confirm _
                   | Api_iter => True
                   | _ => False
                   end) calls.

(** Aliases, alias services and people at the terminal on which the
    statements about the service and the commands are evaluated. *)
Module Demo2.

Definition handle : PyiCloudService :=
  {| apple_id := Demo.alice; password := "p@ss1"; created_at := 1 |}.

Definition configured : config.Disk :=
  {| config.config_dir := true;
     config.config_file :=
       config.Document (config.JObject {[ "default_username" := Some Demo.alice ]}) |}.

Definition unconfigured : config.Disk :=
  {| config.config_dir := false; config.config_file := config.Missing |}.


(** A command that has not logged in. *)
Definition logged_out_machine : Machine :=
  {| world := Demo.set_up; disk := configured; journal := [];
     local_client := ICloudClient.new; local_keychain := KeychainManager.new |}.

(** A machine on which nothing has been set up. *)
Definition new_machine : Machine :=
  {| world := Demo.fresh; disk := unconfigured; journal := [];
     local_client := ICloudClient.new; local_keychain := KeychainManager.new |}.

(** [alice] has been set up: credential, cookie file and default account. *)
Definition set_up_machine : Machine :=
  {| world := Demo.set_up; disk := configured; journal := [];
     local_client := ICloudClient.new; local_keychain := KeychainManager.new |}.

Definition alias_data (id address name remark : string) (active : bool) : ApiData.t :=
  {| ApiData.anonymousId := Some id; ApiData.hme := Some address;
     ApiData.label := Some name; ApiData.note := Some remark;
     ApiData.createTimestamp := Some 1700000000000; ApiData.isActive := Some active;
     ApiData.forwardToEmail := Some Demo.alice; ApiData.domain := Some "icloud.com";
     ApiData.other_keys := false |}.

Definition netflix : ApiData.t :=
  alias_data "id-1" "quiet.river@icloud.com" "Netflix" "" true.

Definition shop : ApiData.t :=
  alias_data "id-2" "plain.hill@icloud.com" "Shop" "the NETFLIX gift card" false.

(** A service with two aliases that does what it is asked. *)
Definition api_two_aliases : AliasAPI :=
  {| api_iter := fun _ _ => ([netflix; shop], None);
     api_generate := fun _ _ => Return (alias_data "" "new.dawn@icloud.com" "" "" true);
     api_reserve :=
       fun _ address name remark _ => Return (Some (alias_data "id-3" address name remark true));
     api_update_metadata := fun _ _ _ _ _ => Return true;
     api_deactivate := fun _ _ _ => Return true;
     api_reactivate := fun _ _ _ => Return true;
     api_delete := fun _ _ _ => Return true |}.


(** Someone who types [alice]'s account and password, the code ["123456"],
    and says yes or no to every question. *)
Definition person (says_yes : bool) (secret : string) : Terminal :=
  {| prompt_answer := fun _ hidden _ => if hidden then secret else Demo.alice;
     confirm_answer := fun _ _ => says_yes;
     twofa_answer := fun _ => Return "123456" |}.

End Demo2.

(* ===================================================================== *)
(** * Theorems *)
(* ===================================================================== *)

Open Scope list_scope.



Lemma log_events_log_events (d1 d2 : list Event) (w : World) :
  log_events d2 (log_events d1 w) = log_events (d1 ++ d2) w.
Proof. unfold log_events; simpl. now rewrite app_assoc. Qed.

Lemma events_since_log_events (d : list Event) (w : World) :
  events_since w (log_events d w) = d.
Proof. unfold events_since, log_events; simpl. apply drop_app_length. Qed.

Lemma events_since_app (w w' : World) (d : list Event) :
  trace w' = trace w ++ d -> events_since w w' = d.
Proof. unfold events_since. intros ->. apply drop_app_length. Qed.

Ltac solve_Forall :=
  repeat (apply List.Forall_cons; [auto|]); apply List.Forall_nil.

Ltac elem_cases H :=
  repeat match type of H with
         | _ ∈ _ ++ _ => apply elem_of_app in H as [H|H]
         | _ ∈ _ :: _ => apply elem_of_cons in H as [H|H]
         | _ ∈ [] => now apply elem_of_nil in H
         end.

Ltac simpl_state :=
  cbn [fst snd negb ICloudClient.keychain ICloudClient._api ICloudClient._username
       KeychainManager._last_error].

Ltac list_assoc :=
  repeat (progress (rewrite <- ?app_assoc; cbn [app])).

Ltac norm_log :=
  unfold log_event in *; rewrite ?log_events_log_events in *; simpl app in *.

Section TouchIDFacts.
Variable LA : LocalAuthentication.

(** [is_available] always answers, and only talks to the gate. *)
Lemma is_available_returns (w : World) :
  exists b d,
    touchid.is_available LA w = (Return b, log_events (Call_is_available :: d) w)
    /\ (d = [] \/ d = [Ev_canEvaluatePolicy]).
Proof.
  unfold touchid.is_available, bind, try_except, log, touchid.import_LocalAuthentication, ask, ret.
  simpl.
  destruct (la_importable LA _).
  - destruct (la_canEvaluatePolicy LA _) as [[b e]|e].
    + exists b, [Ev_canEvaluatePolicy]. split; [|now right]. now norm_log.
    + exists false, [Ev_canEvaluatePolicy]. split; [|now right].
      destruct e; now norm_log.
  - exists false, []. split; [reflexivity|now left].
Qed.

(** [authenticate] only talks to the gate, and starts by being called. *)
Lemma authenticate_logs (reason : string) (w : World) :
  exists r d,
    touchid.authenticate LA reason w = (r, log_events (Call_authenticate reason :: d) w)
    /\ Forall (fun e => e = Ev_canEvaluatePolicy \/ e = Ev_evaluatePolicy reason) d.
Proof.
  unfold touchid.authenticate, bind, try_except, log, touchid.import_LocalAuthentication, ask, ret.
  simpl.
  destruct (la_importable LA _); simpl.
  - destruct (la_canEvaluatePolicy LA _) as [[[] e]|e]; simpl.
    + destruct (la_evaluatePolicy LA _ _) as [[b e']|e'].
      * eexists _, [Ev_canEvaluatePolicy; Ev_evaluatePolicy reason]. norm_log.
        split; [reflexivity|]. solve_Forall.
      * eexists _, [Ev_canEvaluatePolicy; Ev_evaluatePolicy reason]. norm_log.
        split; [reflexivity|]. solve_Forall.
    + eexists _, [Ev_canEvaluatePolicy]. norm_log. split; [reflexivity|]. solve_Forall.
    + eexists _, [Ev_canEvaluatePolicy]. norm_log. split; [reflexivity|]. solve_Forall.
  - eexists _, []. split; [reflexivity|constructor].
Qed.

End TouchIDFacts.

Lemma events_since_set_keychain_items (i : gmap (string * string) string) (w w' : World) :
  events_since w (set_keychain_items i w') = events_since w w'.
Proof. reflexivity. Qed.

Lemma events_since_set_session_dir (d : gmap string CookieEntry) (w w' : World) :
  events_since w (set_session_dir d w') = events_since w w'.
Proof. reflexivity. Qed.

Lemma log_events_set_session_dir (s : gmap string CookieEntry) (d : list Event) (w : World) :
  log_events d (set_session_dir s w) = set_session_dir s (log_events d w).
Proof. reflexivity. Qed.

Section KeychainFacts.
Variable LA : LocalAuthentication.
Variable security : Program.

Lemma subprocess_run_eq (args : list string) (w : World) :
  KeychainManager.subprocess_run security args w = (fst (security args w), after_run security args w).
Proof.
  unfold KeychainManager.subprocess_run, after_run. now destruct (security args w).
Qed.

(** [_get_password_fallback] never raises and runs the utility once. *)
Lemma _get_password_fallback_runs (account : string) (k : KeychainManager.t) (w : World) :
  exists r k',
    KeychainManager._get_password_fallback security account (k, w)
    = (Return r, (k', after_run security (find_password_args account) w)).
Proof.
  unfold KeychainManager._get_password_fallback, try_except, bind, KeychainManager.io, zoom.
  cbn [fst snd]. fold (find_password_args account).
  rewrite subprocess_run_eq.
  destruct (fst (security _ w)) as [p|e]; cbn.
  - destruct (returncode p =? 0); cbn; [eauto|].
    destruct (PyStr.contains _ _); cbn; eauto.
  - destruct e; cbn; eauto.
Qed.

(** [has_password] never raises, runs the utility once and never reaches the gate. *)
Lemma has_password_runs (account : string) (k : KeychainManager.t) (w : World) :
  exists b,
    KeychainManager.has_password security account (k, w)
    = (Return b, (k, after_run security (find_item_args account) w)).
Proof.
  unfold KeychainManager.has_password, KeychainManager._has_password_fallback,
    try_except, bind, KeychainManager.io, zoom.
  cbn [fst snd]. fold (find_item_args account).
  rewrite subprocess_run_eq.
  destruct (fst (security _ w)) as [p|e]; cbn; eauto.
Qed.

End KeychainFacts.

(** ** The utility on the source's argument lists *)

Section SecurityFacts.

Lemma existsb_has_nul_find_password (account : string) :
  existsb PyStr.has_nul (find_password_args account) = PyStr.has_nul account.
Proof. cbn. now rewrite !orb_false_r. Qed.

Lemma existsb_has_nul_find_item (account : string) :
  existsb PyStr.has_nul (find_item_args account) = PyStr.has_nul account.
Proof. cbn. now rewrite !orb_false_r. Qed.

Lemma existsb_has_nul_delete (account : string) :
  existsb PyStr.has_nul (delete_args account) = PyStr.has_nul account.
Proof. cbn. now rewrite !orb_false_r. Qed.

Lemma existsb_has_nul_add (account secret : string) :
  existsb PyStr.has_nul (add_args account secret)
  = PyStr.has_nul account || PyStr.has_nul secret.
Proof. cbn. now rewrite !orb_false_r. Qed.

Lemma run_find_password (account : string) (w : World) :
  security_installed w = true ->
  PyStr.has_nul account = false ->
  Security.run (find_password_args account) w
  = (match keychain_items w !! (SERVICE_NAME, account) with
     | Some secret => Return (Security.completed 0 (secret +:+ Security.newline) "")
     | None => Return Security.not_found
     end, keychain_items w).
Proof.
  intros Hi Hn. unfold Security.run.
  rewrite Hi, existsb_has_nul_find_password, Hn. cbn.
  now destruct (keychain_items w !! _).
Qed.

Lemma run_find_item (account : string) (w : World) :
  security_installed w = true ->
  PyStr.has_nul account = false ->
  Security.run (find_item_args account) w
  = (match keychain_items w !! (SERVICE_NAME, account) with
     | Some _ => Return (Security.completed 0 ("keychain: login.keychain-db" +:+ Security.newline) "")
     | None => Return Security.not_found
     end, keychain_items w).
Proof.
  intros Hi Hn. unfold Security.run.
  rewrite Hi, existsb_has_nul_find_item, Hn. cbn.
  now destruct (keychain_items w !! _).
Qed.

Lemma run_delete (account : string) (w : World) :
  security_installed w = true ->
  PyStr.has_nul account = false ->
  Security.run (delete_args account) w
  = (match keychain_items w !! (SERVICE_NAME, account) with
     | Some _ => Return (Security.completed 0 ("password has been deleted." +:+ Security.newline) "")
     | None => Return Security.not_found
     end, delete (SERVICE_NAME, account) (keychain_items w)).
Proof.
  intros Hi Hn. unfold Security.run.
  rewrite Hi, existsb_has_nul_delete, Hn. cbn.
  destruct (keychain_items w !! _) eqn:E; [reflexivity|].
  now rewrite delete_id.
Qed.


End SecurityFacts.

Section GatePrecedence.
Variable LA : LocalAuthentication.
Variable security : Program.

(** [get_password] when the gate is not available: straight to the store. *)
Lemma get_password_unavailable (account prompt : string) (k : KeychainManager.t) (w w1 : World) :
  touchid.is_available LA w = (Return false, w1) ->
  KeychainManager.get_password LA security account prompt (k, w)
  = KeychainManager._get_password_fallback security account
      ({| KeychainManager._last_error := None |}, w1).
Proof.
  intros H. unfold KeychainManager.get_password, bind, KeychainManager.set_last_error,
    KeychainManager.io, zoom. cbn [fst snd]. now rewrite H.
Qed.

(** [get_password] when the gate grants: the store is read next. *)
Lemma get_password_granted (account prompt : string) (k : KeychainManager.t)
    (w w1 w2 : World) (error : option string) :
  touchid.is_available LA w = (Return true, w1) ->
  touchid.authenticate LA prompt w1 = (Return (true, error), w2) ->
  KeychainManager.get_password LA security account prompt (k, w)
  = KeychainManager._get_password_fallback security account
      ({| KeychainManager._last_error := None |}, w2).
Proof.
  intros H1 H2. unfold KeychainManager.get_password, bind, KeychainManager.set_last_error,
    KeychainManager.io, zoom. cbn [fst snd]. rewrite H1. cbn [fst snd]. now rewrite H2.
Qed.

(** [get_password] when the gate denies: nothing is read. *)
Lemma get_password_denied (account prompt : string) (k : KeychainManager.t)
    (w w1 w2 : World) (error : option string) :
  touchid.is_available LA w = (Return true, w1) ->
  touchid.authenticate LA prompt w1 = (Return (false, error), w2) ->
  KeychainManager.get_password LA security account prompt (k, w)
  = (Return None,
     ({| KeychainManager._last_error :=
           Some ("Touch ID authentication failed: " +:+ PyStr.of_optional error) |}, w2)).
Proof.
  intros H1 H2. unfold KeychainManager.get_password, bind, KeychainManager.set_last_error,
    KeychainManager.io, zoom. cbn [fst snd]. rewrite H1. cbn [fst snd]. now rewrite H2.
Qed.

(** [get_password] when the gate itself raises: the exception goes on. *)
Lemma get_password_gate_raises (account prompt : string) (k : KeychainManager.t)
    (w w1 w2 : World) (e : Exn) :
  touchid.is_available LA w = (Return true, w1) ->
  touchid.authenticate LA prompt w1 = (Raise e, w2) ->
  KeychainManager.get_password LA security account prompt (k, w)
  = (Raise e, ({| KeychainManager._last_error := None |}, w2)).
Proof.
  intros H1 H2. unfold KeychainManager.get_password, bind, KeychainManager.set_last_error,
    KeychainManager.io, zoom. cbn [fst snd]. rewrite H1. cbn [fst snd]. now rewrite H2.
Qed.

(** C3 (gate precedence).  In every run of [get_password]: the gate's
    [authenticate] is called only when [is_available] answered [True], and
    then with the caller's prompt; and when the gate is available and denies,
    [get_password] returns [None] with the "Touch ID authentication failed"
    error recorded, the world is the one the gate left, the keychain is
    untouched and [/usr/bin/security] was never run. *)
Theorem get_password_gate_precedence
    (account prompt : string) (k : KeychainManager.t) (w : World) :
  let '(r, (k', w')) := KeychainManager.get_password LA security account prompt (k, w) in
  (forall reason,
      Call_authenticate reason ∈ events_since w w' ->
      reason = prompt /\ exists w1, touchid.is_available LA w = (Return true, w1))
  /\ (forall w1 w2 error,
        touchid.is_available LA w = (Return true, w1) ->
        touchid.authenticate LA prompt w1 = (Return (false, error), w2) ->
        r = Return None
        /\ KeychainManager._last_error k'
           = Some ("Touch ID authentication failed: " +:+ PyStr.of_optional error)
        /\ w' = w2
        /\ keychain_items w' = keychain_items w
        /\ forall args, Ev_subprocess_run args ∉ events_since w w').
Proof.
  destruct (is_available_returns LA w) as (b & d & Hav & Hd).
  assert (Hd' : forall e, e ∈ Call_is_available :: d ->
                          e = Call_is_available \/ e = Ev_canEvaluatePolicy).
  { intros e Hin. destruct Hd as [-> | ->]; elem_cases Hin; auto. }
  destruct b.
  - (* available *)
    destruct (authenticate_logs LA prompt (log_events (Call_is_available :: d) w))
      as (ra & da & Hau & Hda).
    rewrite log_events_log_events in Hau.
    rewrite List.Forall_forall in Hda.
    assert (Hgate : forall e,
               e ∈ (Call_is_available :: d) ++ Call_authenticate prompt :: da ->
               e = Call_is_available \/ e = Ev_canEvaluatePolicy
               \/ e = Call_authenticate prompt \/ e = Ev_evaluatePolicy prompt).
    { intros e Hin. apply elem_of_app in Hin as [Hin|Hin].
      - apply Hd' in Hin. tauto.
      - apply elem_of_cons in Hin as [Hin|Hin]; [tauto|].
        apply list_elem_of_In, Hda in Hin. tauto. }
    destruct ra as [[[] error]|e].
    + (* granted *)
      rewrite (get_password_granted account prompt k _ _ _ _ Hav Hau).
      destruct (_get_password_fallback_runs security account
                  {| KeychainManager._last_error := None |}
                  (log_events ((Call_is_available :: d) ++ Call_authenticate prompt :: da) w))
        as (r & k' & ->).
      split.
      * intros reason Hin. unfold after_run in Hin.
        rewrite events_since_set_keychain_items, log_events_log_events,
          events_since_log_events in Hin.
        split; [|eauto].
        apply elem_of_app in Hin as [Hin|Hin].
        -- apply Hgate in Hin. intuition congruence.
        -- elem_cases Hin. discriminate.
      * intros w1 w2 err H1 H2. rewrite Hav in H1. injection H1 as <-.
        rewrite Hau in H2. discriminate.
    + (* denied *)
      rewrite (get_password_denied account prompt k _ _ _ _ Hav Hau).
      split.
      * intros reason Hin. rewrite events_since_log_events in Hin.
        split; [|eauto]. apply Hgate in Hin. intuition congruence.
      * intros w1 w2 err H1 H2. rewrite Hav in H1. injection H1 as <-.
        rewrite Hau in H2. injection H2 as <- <-.
        repeat split; try reflexivity.
        intros args Hin. rewrite events_since_log_events in Hin.
        apply Hgate in Hin. intuition discriminate.
    + (* the gate raises *)
      rewrite (get_password_gate_raises account prompt k _ _ _ _ Hav Hau).
      split.
      * intros reason Hin. rewrite events_since_log_events in Hin.
        split; [|eauto]. apply Hgate in Hin. intuition congruence.
      * intros w1 w2 err H1 H2. rewrite Hav in H1. injection H1 as <-.
        rewrite Hau in H2. discriminate.
  - (* not available *)
    rewrite (get_password_unavailable account prompt k _ _ Hav).
    destruct (_get_password_fallback_runs security account
                {| KeychainManager._last_error := None |}
                (log_events (Call_is_available :: d) w))
      as (r & k' & ->).
    split.
    + intros reason Hin. exfalso. unfold after_run in Hin.
      rewrite events_since_set_keychain_items, log_events_log_events,
        events_since_log_events in Hin.
      apply elem_of_app in Hin as [Hin|Hin].
      * apply Hd' in Hin. intuition discriminate.
      * elem_cases Hin. discriminate.
    + intros w1 w2 err H1. rewrite Hav in H1. discriminate.
Qed.

End GatePrecedence.

(** C3 with the credential stored and the user cancelling the prompt: the
    secret stays in the keychain, unread. *)
Lemma get_password_gate_precedence_witness :
  let '(r, (k', w')) :=
    KeychainManager.get_password Demo.touch_id_denying Security.run Demo.alice
      "Authenticate to access credentials" (KeychainManager.new, Demo.set_up) in
  r = Return None
  /\ KeychainManager._last_error k'
     = Some "Touch ID authentication failed: Authentication canceled."
  /\ keychain_items w' !! (SERVICE_NAME, Demo.alice) = Some "p@ss1"
  /\ forall args, Ev_subprocess_run args ∉ events_since Demo.set_up w'.
Proof.
  pose proof (get_password_gate_precedence Demo.touch_id_denying Security.run Demo.alice
                "Authenticate to access credentials" KeychainManager.new Demo.set_up) as H.
  destruct (KeychainManager.get_password Demo.touch_id_denying Security.run Demo.alice
              "Authenticate to access credentials" (KeychainManager.new, Demo.set_up))
    as [r [k' w']].
  destruct H as (_ & Hdenied).
  destruct (Hdenied _ _ _ eq_refl eq_refl) as (Hr & Herr & _ & Hkeys & Hrun).
  split; [exact Hr|]. split; [exact Herr|]. split; [|exact Hrun].
  rewrite Hkeys. reflexivity.
Defined.

(** Without Touch ID the gate's [authenticate] is not called and the secret
    is read. *)
Example get_password_without_touch_id :
  let '(r, (k', w')) :=
    KeychainManager.get_password Demo.no_touch_id Security.run Demo.alice
      "Authenticate to access credentials" (KeychainManager.new, Demo.set_up) in
  r = Return (Some "p@ss1")
  /\ events_since Demo.set_up w'
     = [Call_is_available; Ev_subprocess_run (find_password_args Demo.alice)].
Proof. vm_compute. split; reflexivity. Qed.

(** ** The store on the keychain model *)

Section StoreFacts.
Variable LA : LocalAuthentication.






End StoreFacts.

(** ** Round trip and overwrite *)

Section RoundTrip.
Variable LA : LocalAuthentication.

(** The calls of [is_available] followed by [authenticate] stay with the gate. *)
Lemma gate_calls_local (prompt : string) (d da : list Event) :
  (d = [] \/ d = [Ev_canEvaluatePolicy]) ->
  Forall (fun e => e = Ev_canEvaluatePolicy \/ e = Ev_evaluatePolicy prompt) da ->
  Forall (fun e => remote_event e = false)
    ((Call_is_available :: d) ++ Call_authenticate prompt :: da).
Proof.
  intros Hd Hda. apply List.Forall_app. split.
  - destruct Hd as [-> | ->]; solve_Forall.
  - apply List.Forall_cons; [reflexivity|].
    eapply List.Forall_impl; [|exact Hda]. now intros e [-> | ->].
Qed.

(** Past an open gate, [get_password] is the read of the store, in a world
    that differs from the first by calls of the gate only. *)
Lemma gate_open_world (prompt : string) (w : World) :
  gate_open LA prompt w ->
  exists d,
    Forall (fun e => remote_event e = false) d
    /\ forall (security : Program) (account : string) (k : KeychainManager.t),
      KeychainManager.get_password LA security account prompt (k, w)
      = KeychainManager._get_password_fallback security account
          ({| KeychainManager._last_error := None |}, log_events d w).
Proof.
  intros [[w1 H]|(w1 & error & w2 & H1 & H2)].
  - destruct (is_available_returns LA w) as (b & d & Hav & Hd).
    rewrite Hav in H. injection H as -> <-.
    exists (Call_is_available :: d). split.
    + destruct Hd as [-> | ->]; solve_Forall.
    + intros. now apply get_password_unavailable.
  - destruct (is_available_returns LA w) as (b & d & Hav & Hd).
    rewrite Hav in H1. injection H1 as -> <-.
    destruct (authenticate_logs LA prompt (log_events (Call_is_available :: d) w))
      as (r & da & Hau & Hda).
    rewrite H2 in Hau. injection Hau as _ ->.
    rewrite log_events_log_events in H2.
    exists ((Call_is_available :: d) ++ Call_authenticate prompt :: da).
    split; [now apply gate_calls_local|].
    intros. eapply get_password_granted; [exact Hav|exact H2].
Qed.



End RoundTrip.

(** C4 (round trip), at the secret ["p@ss1 "]: the store succeeds, and the
    read gives back ["p@ss1"], without the trailing space. *)
Theorem round_trip_drops_trailing_space :
  fst ((stored <- KeychainManager.store_password Security.run Demo.alice "p@ss1 " true ;;
        secret <- KeychainManager.get_password Demo.touch_id_granting Security.run
                    Demo.alice "Authenticate to access credentials" ;;
        ret (stored, secret))
         (KeychainManager.new, Demo.fresh))
  = Return (true, Some "p@ss1").
Proof. vm_compute. reflexivity. Qed.

(** C5 (overwrite), at the secrets ["hunter2"] and then [" hunter2"]: both
    stores succeed, the keychain holds the second secret, and the read gives
    back ["hunter2"], which is the first. *)
Theorem overwrite_reads_first_secret :
  let '(r, st) :=
    (first <- KeychainManager.store_password Security.run Demo.alice "hunter2" true ;;
     second <- KeychainManager.store_password Security.run Demo.alice " hunter2" true ;;
     secret <- KeychainManager.get_password Demo.no_touch_id Security.run
                 Demo.alice "Authenticate to access credentials" ;;
     ret (first, second, secret))
      (KeychainManager.new, Demo.fresh) in
  r = Return (true, true, Some "hunter2")
  /\ keychain_items (snd st) !! (SERVICE_NAME, Demo.alice) = Some " hunter2".
Proof. vm_compute. split; reflexivity. Qed.





(** ** [authenticate] without a secret *)

Section Authenticate.
Variable LA : LocalAuthentication.
Variable security : Program.
Variable icloud : PyiCloud.

(** When the store gives nothing, [authenticate] stops there. *)
Lemma authenticate_get_none (username : string)
    (callback : option (World -> Outcome string))
    (c : ICloudClient.t) (w : World) (k' : KeychainManager.t) (w' : World) :
  KeychainManager.get_password LA security username
    "Authenticate to access iCloud credentials" (ICloudClient.keychain c, w)
  = (Return None, (k', w')) ->
  ICloudClient.authenticate LA security icloud username None callback (c, w)
  = (Raise (CredentialsNotFoundError
              "No stored credentials found. Run 'hide-my-email setup' first."),
     ({| ICloudClient.keychain := k'; ICloudClient._api := ICloudClient._api c;
         ICloudClient._username := Some username |}, w')).
Proof.
  intros H.
  unfold ICloudClient.authenticate, bind, ICloudClient.set_username,
    ICloudClient.on_keychain, zoom.
  cbn [fst snd ICloudClient.keychain ICloudClient._api ICloudClient._username].
  now rewrite H.
Qed.

(** The login is refused: [AuthenticationError], and [_api] is not assigned. *)
Lemma authenticate_login_refused (username secret msg : string)
    (callback : option (World -> Outcome string))
    (c : ICloudClient.t) (w w1 : World) :
  ICloudClient.PyiCloudService_new icloud username secret (log_event Ev_mkdir w)
  = (Raise (PyiCloudFailedLoginException msg), w1) ->
  ICloudClient.authenticate LA security icloud username (Some secret) callback (c, w)
  = (Raise (AuthenticationError ("Login failed: " +:+ msg)),
     ({| ICloudClient.keychain := ICloudClient.keychain c;
         ICloudClient._api := ICloudClient._api c;
         ICloudClient._username := Some username |}, w1)).
Proof.
  intros H.
  unfold ICloudClient.authenticate, bind, try_except, ret, raise, ICloudClient.set_username,
    ICloudClient.io, ICloudClient.mkdir_cookie_dir, log, zoom.
  cbn [fst snd ICloudClient.keychain ICloudClient._api ICloudClient._username].
  now rewrite H.
Qed.

(** Second factor required, no callback. *)
Lemma authenticate_2fa_no_callback (username secret : string)
    (c : ICloudClient.t) (w w1 w2 : World) (client : PyiCloudService) :
  ICloudClient.PyiCloudService_new icloud username secret (log_event Ev_mkdir w)
  = (Return client, w1) ->
  ICloudClient.requires_2fa icloud client w1 = (Return true, w2) ->
  ICloudClient.authenticate LA security icloud username (Some secret) None (c, w)
  = (Raise (TwoFactorRequiredError "2FA required but no callback provided"),
     ({| ICloudClient.keychain := ICloudClient.keychain c;
         ICloudClient._api := Some client;
         ICloudClient._username := Some username |}, w2)).
Proof.
  intros H1 H2.
  unfold ICloudClient.authenticate, bind, try_except, ret, raise, ICloudClient.set_username,
    ICloudClient.set_api, ICloudClient.io, ICloudClient.mkdir_cookie_dir, log, zoom.
  cbn [fst snd ICloudClient.keychain ICloudClient._api ICloudClient._username].
  rewrite H1. cbn [fst snd ICloudClient.keychain ICloudClient._api ICloudClient._username].
  now rewrite H2.
Qed.

(** Second factor required, the code is refused. *)
Lemma authenticate_invalid_code (username secret code : string)
    (callback : World -> Outcome string)
    (c : ICloudClient.t) (w w1 w2 w3 w4 : World) (client : PyiCloudService) :
  ICloudClient.PyiCloudService_new icloud username secret (log_event Ev_mkdir w)
  = (Return client, w1) ->
  ICloudClient.requires_2fa icloud client w1 = (Return true, w2) ->
  ICloudClient.call_twofa_callback callback w2 = (Return code, w3) ->
  ICloudClient.validate_2fa_code icloud client code w3 = (Return false, w4) ->
  ICloudClient.authenticate LA security icloud username (Some secret) (Some callback) (c, w)
  = (Raise (AuthenticationError "Invalid 2FA code"),
     ({| ICloudClient.keychain := ICloudClient.keychain c;
         ICloudClient._api := Some client;
         ICloudClient._username := Some username |}, w4)).
Proof.
  intros H1 H2 H3 H4.
  unfold ICloudClient.authenticate, bind, try_except, ret, raise, ICloudClient.set_username,
    ICloudClient.set_api, ICloudClient.io, ICloudClient.mkdir_cookie_dir, log, zoom.
  cbn [fst snd ICloudClient.keychain ICloudClient._api ICloudClient._username].
  rewrite H1. cbn [fst snd ICloudClient.keychain ICloudClient._api ICloudClient._username].
  rewrite H2. cbn [fst snd ICloudClient.keychain ICloudClient._api ICloudClient._username].
  rewrite H3. cbn [fst snd ICloudClient.keychain ICloudClient._api ICloudClient._username].
  now rewrite H4.
Qed.

(** What the calls of the remote client do to the world. *)
Lemma PyiCloudService_new_world (username secret : string) (w : World) :
  snd (ICloudClient.PyiCloudService_new icloud username secret w)
  = set_session_dir (snd (icloud_login icloud username secret w))
      (log_events [Ev_login username secret] w).
Proof.
  unfold ICloudClient.PyiCloudService_new.
  destruct (icloud_login icloud username secret w) as [[[]|e] d]; reflexivity.
Qed.

Lemma PyiCloudService_new_client (username secret : string) (w w1 : World)
    (client : PyiCloudService) :
  ICloudClient.PyiCloudService_new icloud username secret w = (Return client, w1) ->
  client = {| apple_id := username; password := secret; created_at := length (trace w) |}.
Proof.
  unfold ICloudClient.PyiCloudService_new.
  destruct (icloud_login icloud username secret w) as [[[]|e] d]; congruence.
Qed.

Lemma validate_2fa_code_world (client : PyiCloudService) (code : string) (w : World) :
  snd (ICloudClient.validate_2fa_code icloud client code w)
  = set_session_dir (snd (icloud_validate_2fa_code icloud client code w))
      (log_events [Ev_validate_2fa_code client code] w).
Proof.
  unfold ICloudClient.validate_2fa_code, ask_session.
  now destruct (icloud_validate_2fa_code icloud client code w).
Qed.

Lemma trust_session_world (client : PyiCloudService) (w : World) :
  snd (ICloudClient.trust_session icloud client w)
  = set_session_dir (snd (icloud_trust_session icloud client w))
      (log_events [Ev_trust_session client] w).
Proof.
  unfold ICloudClient.trust_session, ask_session.
  now destruct (icloud_trust_session icloud client w).
Qed.

End Authenticate.



(** ** Properties of the state a computation keeps *)

Section Keeps.
Context {S : Type} (P : S -> Prop).

Lemma keeps_ret {A : Type} (a : A) : keeps P (ret a).
Proof. now intros s. Qed.

Lemma keeps_raise {A : Type} (e : Exn) : keeps P (@raise S A e).
Proof. now intros s. Qed.

Lemma keeps_bind {A B : Type} (m : Py S A) (k : A -> Py S B) :
  keeps P m -> (forall a, keeps P (k a)) -> keeps P (bind m k).
Proof.
  intros Hm Hk s Hs. unfold bind. specialize (Hm s Hs).
  destruct (m s) as [[a|e] s']; cbn in *; [now apply Hk|assumption].
Qed.

Lemma keeps_try_except {A : Type} (body : Py S A) (handler : Exn -> option (Py S A)) :
  keeps P body ->
  (forall e h, handler e = Some h -> keeps P h) ->
  keeps P (try_except body handler).
Proof.
  intros Hb Hh s Hs. unfold try_except. specialize (Hb s Hs).
  destruct (body s) as [[a|e] s']; cbn in *; [assumption|].
  destruct (handler e) as [h|] eqn:E; [now apply (Hh e h)|assumption].
Qed.

Lemma keeps_zoom {T A : Type} (Q : T -> Prop) (get : S -> T) (put : T -> S -> S)
    (m : Py T A) :
  keeps Q m ->
  (forall s, P s -> Q (get s)) ->
  (forall s t, P s -> Q t -> P (put t s)) ->
  keeps P (zoom get put m).
Proof.
  intros Hm Hget Hput s Hs. unfold zoom.
  specialize (Hm (get s) (Hget s Hs)).
  destruct (m (get s)) as [r t']; cbn in *. now apply Hput.
Qed.

End Keeps.

Section SessionDirectory.
Variable LA : LocalAuthentication.
Variable security : Program.
Variable icloud : PyiCloud.
Variable I : gmap string CookieEntry -> Prop.
Hypothesis icloud_keeps : preserved_by icloud I.

Let PW (w : World) : Prop := I (session_dir w).
Let PK (s : KeychainManager.State) : Prop := I (session_dir (snd s)).
Let PC (s : ICloudClient.State) : Prop := I (session_dir (snd s)).

Lemma keeps_log (e : Event) : keeps PW (log e).
Proof. now intros w. Qed.

Lemma keeps_ask {A : Type} (e : Event) (answer : World -> Outcome A) :
  keeps PW (ask e answer).
Proof. now intros w. Qed.

Lemma keeps_keychain_io {A : Type} (m : Py World A) :
  keeps PW m -> keeps PK (KeychainManager.io m).
Proof. intros Hm. apply (keeps_zoom PK PW); [assumption|now intros []|now intros [] ?]. Qed.

Lemma keeps_set_last_error (v : option string) :
  keeps PK (KeychainManager.set_last_error v).
Proof. now intros s. Qed.

Lemma keeps_is_available : keeps PW (touchid.is_available LA).
Proof.
  intros w Hw. destruct (is_available_returns LA w) as (b & d & -> & _). exact Hw.
Qed.

Lemma keeps_touchid_authenticate (reason : string) :
  keeps PW (touchid.authenticate LA reason).
Proof.
  intros w Hw. destruct (authenticate_logs LA reason w) as (r & d & -> & _). exact Hw.
Qed.

Lemma keeps__get_password_fallback (account : string) :
  keeps PK (KeychainManager._get_password_fallback security account).
Proof.
  intros [k w] Hw.
  destruct (_get_password_fallback_runs security account k w) as (r & k' & ->). exact Hw.
Qed.

Lemma keeps_get_password (account prompt : string) :
  keeps PK (KeychainManager.get_password LA security account prompt).
Proof.
  unfold KeychainManager.get_password.
  apply keeps_bind; [apply keeps_set_last_error|intros _].
  apply keeps_bind; [apply keeps_keychain_io, keeps_is_available|intros []].
  - apply keeps_bind; [apply keeps_keychain_io, keeps_touchid_authenticate|intros [[] error]].
    + apply keeps__get_password_fallback.
    + apply keeps_bind; [apply keeps_set_last_error|intros _; apply keeps_ret].
  - apply keeps__get_password_fallback.
Qed.

Lemma keeps_client_io {A : Type} (m : Py World A) :
  keeps PW m -> keeps PC (ICloudClient.io m).
Proof. intros Hm. apply (keeps_zoom PC PW); [assumption|now intros []|now intros [] ?]. Qed.

Lemma keeps_on_keychain {A : Type} (m : Py KeychainManager.State A) :
  keeps PK m -> keeps PC (ICloudClient.on_keychain m).
Proof. intros Hm. apply (keeps_zoom PC PK); [assumption|now intros []|now intros [] []]. Qed.

Lemma keeps_set_api (v : option PyiCloudService) : keeps PC (ICloudClient.set_api v).
Proof. now intros s. Qed.

Lemma keeps_set_username (v : option string) : keeps PC (ICloudClient.set_username v).
Proof. now intros s. Qed.

Lemma keeps_PyiCloudService_new (username secret : string) :
  keeps PW (ICloudClient.PyiCloudService_new icloud username secret).
Proof.
  intros w Hw. rewrite PyiCloudService_new_world. now apply icloud_keeps.
Qed.

Lemma keeps_validate_2fa_code (client : PyiCloudService) (code : string) :
  keeps PW (ICloudClient.validate_2fa_code icloud client code).
Proof.
  intros w Hw. rewrite validate_2fa_code_world. now apply icloud_keeps.
Qed.

Lemma keeps_trust_session (client : PyiCloudService) :
  keeps PW (ICloudClient.trust_session icloud client).
Proof.
  intros w Hw. rewrite trust_session_world. now apply icloud_keeps.
Qed.

(** [authenticate] writes nothing of its own to the session directory. *)
Lemma keeps_authenticate (username : string) (secret : option string)
    (callback : option (World -> Outcome string)) :
  keeps PC (ICloudClient.authenticate LA security icloud username secret callback).
Proof.
  unfold ICloudClient.authenticate.
  apply keeps_bind; [apply keeps_set_username|intros _].
  apply keeps_bind.
  { destruct secret; [apply keeps_ret|].
    apply keeps_bind; [apply keeps_on_keychain, keeps_get_password|].
    intros []; [apply keeps_ret|apply keeps_raise]. }
  intros p.
  apply keeps_bind; [apply keeps_client_io, keeps_log|intros _].
  apply keeps_bind.
  { apply keeps_try_except; [apply keeps_client_io, keeps_PyiCloudService_new|].
    intros e h. destruct e; intros [= <-]. apply keeps_raise. }
  intros client.
  apply keeps_bind; [apply keeps_set_api|intros _].
  apply keeps_bind; [apply keeps_client_io, keeps_ask|intros needs_2fa].
  apply keeps_bind; [|intros _; apply keeps_ret].
  destruct needs_2fa; [|apply keeps_ret].
  destruct callback as [cb|]; [|apply keeps_raise].
  apply keeps_bind; [apply keeps_client_io, keeps_ask|intros code].
  apply keeps_bind; [apply keeps_client_io, keeps_validate_2fa_code|intros []].
  - apply keeps_bind; [apply keeps_client_io, keeps_ask|intros []].
    + apply keeps_ret.
    + apply keeps_bind; [apply keeps_client_io, keeps_trust_session|intros _; apply keeps_ret].
  - apply keeps_raise.
Qed.

End SessionDirectory.

(** ** Second factor *)

(** C1, as the code has it.  When the login is accepted, the client
    reports that a second factor is required and no callback was passed,
    [authenticate] raises [TwoFactorRequiredError] and leaves the session
    directory exactly as the login left it.  And in every run, whatever the
    arguments and however it ends, [authenticate] writes no session artifact
    of its own: a property of the session directory that the operations of
    the remote client preserve holds afterwards if it held before. *)
Theorem authenticate_2fa_without_provider
    (LA : LocalAuthentication) (security : Program) (icloud : PyiCloud)
    (username : string) (c : ICloudClient.t) (w : World) :
  (forall secret client w1 w2,
      ICloudClient.PyiCloudService_new icloud username secret (log_event Ev_mkdir w)
      = (Return client, w1) ->
      ICloudClient.requires_2fa icloud client w1 = (Return true, w2) ->
      exists c',
        ICloudClient.authenticate LA security icloud username (Some secret) None (c, w)
        = (Raise (TwoFactorRequiredError "2FA required but no callback provided"), (c', w2))
        /\ session_dir w2 = session_dir w1
        /\ session_dir w1 = snd (icloud_login icloud username secret (log_event Ev_mkdir w)))
  /\ (forall secret callback (I : gmap string CookieEntry -> Prop),
        preserved_by icloud I ->
        I (session_dir w) ->
        I (session_dir
             (snd (snd (ICloudClient.authenticate LA security icloud username
                          secret callback (c, w)))))).
Proof.
  split.
  - intros secret client w1 w2 H1 H2.
    eexists. split; [eapply authenticate_2fa_no_callback; eassumption|].
    split.
    + unfold ICloudClient.requires_2fa, ask in H2. now injection H2 as _ <-.
    + pose proof (PyiCloudService_new_world icloud username secret (log_event Ev_mkdir w)) as Hw.
      rewrite H1 in Hw. cbn [snd] in Hw. now rewrite Hw.
  - intros secret callback I HI Hw.
    now apply (keeps_authenticate LA security icloud I HI username secret callback (c, w)).
Qed.

(** C1 on a fresh machine: no artifact before, none after. *)
Lemma authenticate_2fa_without_provider_witness :
  exists c' w2,
    ICloudClient.authenticate Demo.no_touch_id Security.run (Demo.icloud_2fa "123456")
      Demo.alice (Some "p@ss1") None (ICloudClient.new, Demo.fresh)
    = (Raise (TwoFactorRequiredError "2FA required but no callback provided"), (c', w2))
    /\ session_dir w2 !! Demo.alice = None.
Proof.
  destruct (authenticate_2fa_without_provider Demo.no_touch_id Security.run
              (Demo.icloud_2fa "123456") Demo.alice ICloudClient.new Demo.fresh)
    as [H _].
  destruct (H "p@ss1" _ _ _ eq_refl eq_refl) as (c' & Hrun & Hdir & _).
  exists c'. eexists. split; [exact Hrun|]. rewrite Hdir. reflexivity.
Defined.

(** C1 as stated fails when an artifact of an earlier session is on disk:
    the login is accepted, a second factor is required, no callback is
    passed, [TwoFactorRequiredError] is raised, and the artifact is still
    there. *)
Lemma old_artifact_survives_2fa_required :
  let '(r, (c', w')) :=
    ICloudClient.authenticate Demo.no_touch_id Security.run (Demo.icloud_2fa "123456")
      Demo.alice (Some "p@ss1") None (ICloudClient.new, Demo.with_old_session) in
  r = Raise (TwoFactorRequiredError "2FA required but no callback provided")
  /\ session_dir w' !! Demo.alice = Some CookieFile.
Proof. vm_compute. split; reflexivity. Qed.

(** C2, as the code has it.  When the login is accepted, a second factor is
    required and the code the callback gives is refused, [authenticate]
    raises [AuthenticationError("Invalid 2FA code")]; the calls made are the
    mkdir, the login, the question, one call of the callback and one
    validation, so the code is not tried again and the session is not
    trusted; and the session directory is as the validation left it. *)
Theorem authenticate_invalid_2fa_code
    (LA : LocalAuthentication) (security : Program) (icloud : PyiCloud)
    (username secret code : string) (callback : World -> Outcome string)
    (c : ICloudClient.t) (w w1 w2 w3 w4 : World) (client : PyiCloudService) :
  ICloudClient.PyiCloudService_new icloud username secret (log_event Ev_mkdir w)
  = (Return client, w1) ->
  ICloudClient.requires_2fa icloud client w1 = (Return true, w2) ->
  ICloudClient.call_twofa_callback callback w2 = (Return code, w3) ->
  ICloudClient.validate_2fa_code icloud client code w3 = (Return false, w4) ->
  exists c',
    ICloudClient.authenticate LA security icloud username (Some secret) (Some callback) (c, w)
    = (Raise (AuthenticationError "Invalid 2FA code"), (c', w4))
    /\ events_since w w4
       = [Ev_mkdir; Ev_login username secret; Ev_requires_2fa client;
          Ev_twofa_callback; Ev_validate_2fa_code client code]
    /\ session_dir w4 = snd (icloud_validate_2fa_code icloud client code w3)
    /\ session_dir w3 = session_dir w1.
Proof.
  intros H1 H2 H3 H4.
  eexists. split; [eapply authenticate_invalid_code; eassumption|].
  pose proof (PyiCloudService_new_world icloud username secret (log_event Ev_mkdir w)) as Hw1.
  rewrite H1 in Hw1. cbn [snd] in Hw1.
  unfold ICloudClient.requires_2fa, ask in H2. injection H2 as _ Hw2.
  unfold ICloudClient.call_twofa_callback, ask in H3. injection H3 as _ Hw3.
  pose proof (validate_2fa_code_world icloud client code w3) as Hw4.
  rewrite H4 in Hw4. cbn [snd] in Hw4.
  split; [|split].
  - subst w4 w3 w2 w1. unfold log_event.
    rewrite events_since_set_session_dir, !log_events_log_events,
      log_events_set_session_dir, events_since_set_session_dir,
      !log_events_log_events.
    apply events_since_log_events.
  - now subst w4.
  - now subst w3 w2.
Qed.

(** C2 on a fresh machine: the user types a wrong code. *)
Lemma authenticate_invalid_2fa_code_witness :
  exists c' w4,
    ICloudClient.authenticate Demo.no_touch_id Security.run (Demo.icloud_2fa "123456")
      Demo.alice (Some "p@ss1") (Some (Demo.typing "000000"))
      (ICloudClient.new, Demo.fresh)
    = (Raise (AuthenticationError "Invalid 2FA code"), (c', w4))
    /\ session_dir w4 !! Demo.alice = None.
Proof.
  destruct (authenticate_invalid_2fa_code Demo.no_touch_id Security.run
              (Demo.icloud_2fa "123456") Demo.alice "p@ss1" "000000" (Demo.typing "000000")
              ICloudClient.new Demo.fresh _ _ _ _ _ eq_refl eq_refl eq_refl eq_refl)
    as (c' & Hrun & _ & Hdir & _).
  exists c'. eexists. split; [exact Hrun|]. rewrite Hdir. reflexivity.
Defined.

(** C2 as stated fails when an artifact of an earlier session is on disk:
    the code is refused, [AuthenticationError] is raised, and the artifact
    is still there. *)
Lemma old_artifact_survives_invalid_code :
  let '(r, (c', w')) :=
    ICloudClient.authenticate Demo.no_touch_id Security.run (Demo.icloud_2fa "123456")
      Demo.alice (Some "p@ss1") (Some (Demo.typing "000000"))
      (ICloudClient.new, Demo.with_old_session) in
  r = Raise (AuthenticationError "Invalid 2FA code")
  /\ session_dir w' !! Demo.alice = Some CookieFile.
Proof. vm_compute. split; reflexivity. Qed.

(** C9.  When [authenticate] raises on a refused code, the object has
    already changed: [_username] is the name that was tried, [_api] is the
    client that was just built, and reading [api] afterwards returns that
    client instead of raising. *)
Theorem failed_authenticate_keeps_client
    (LA : LocalAuthentication) (security : Program) (icloud : PyiCloud)
    (username secret code : string) (callback : World -> Outcome string)
    (c : ICloudClient.t) (w w1 w2 w3 w4 : World) (client : PyiCloudService) :
  ICloudClient.PyiCloudService_new icloud username secret (log_event Ev_mkdir w)
  = (Return client, w1) ->
  ICloudClient.requires_2fa icloud client w1 = (Return true, w2) ->
  ICloudClient.call_twofa_callback callback w2 = (Return code, w3) ->
  ICloudClient.validate_2fa_code icloud client code w3 = (Return false, w4) ->
  exists c',
    ICloudClient.authenticate LA security icloud username (Some secret) (Some callback) (c, w)
    = (Raise (AuthenticationError "Invalid 2FA code"), (c', w4))
    /\ ICloudClient._username c' = Some username
    /\ ICloudClient._api c' = Some client
    /\ client = {| apple_id := username; password := secret;
                   created_at := length (trace w) + 1 |}
    /\ ICloudClient.api (c', w4) = (Return client, (c', w4)).
Proof.
  intros H1 H2 H3 H4.
  eexists. split; [eapply authenticate_invalid_code; eassumption|].
  repeat split.
  apply PyiCloudService_new_client in H1. rewrite H1. f_equal.
  cbn. now rewrite length_app.
Qed.

(** C9 on a fresh object, whose [api] raised before the call. *)
Lemma failed_authenticate_keeps_client_witness :
  ICloudClient.api (ICloudClient.new, Demo.fresh)
  = (Raise (AuthenticationError "Not authenticated. Run 'hide-my-email setup' first."),
     (ICloudClient.new, Demo.fresh))
  /\ exists c' w4 client,
      ICloudClient.authenticate Demo.no_touch_id Security.run (Demo.icloud_2fa "123456")
        Demo.alice (Some "p@ss1") (Some (Demo.typing "000000"))
        (ICloudClient.new, Demo.fresh)
      = (Raise (AuthenticationError "Invalid 2FA code"), (c', w4))
      /\ ICloudClient.api (c', w4) = (Return client, (c', w4)).
Proof.
  split; [reflexivity|].
  destruct (failed_authenticate_keeps_client Demo.no_touch_id Security.run
              (Demo.icloud_2fa "123456") Demo.alice "p@ss1" "000000" (Demo.typing "000000")
              ICloudClient.new Demo.fresh _ _ _ _ _ eq_refl eq_refl eq_refl eq_refl)
    as (c' & Hrun & _ & _ & _ & Hapi).
  exists c'. eexists. eexists. split; [exact Hrun|exact Hapi].
Defined.

(** ** The validity probe *)

Section Probe.
Variable LA : LocalAuthentication.
Variable security : Program.
Variable icloud : PyiCloud.


End Probe.



(** The service is unreachable: the exception of the client's constructor
    is swallowed and the probe says no. *)
Example is_session_valid_offline :
  fst (ICloudClient.is_session_valid Demo.touch_id_granting Security.run Demo.icloud_offline
         Demo.alice (ICloudClient.new, Demo.set_up))
  = Return false.
Proof. vm_compute. reflexivity. Qed.

(** ** The probe prompts *)

Section ProbePrompts.
Variable LA : LocalAuthentication.
Variable security : Program.
Variable icloud : PyiCloud.

(** Every run of [get_password] asks the gate whether it is available, and
    when it is, calls its [authenticate] with the prompt. *)
Lemma get_password_trace (account prompt : string) (k : KeychainManager.t) (w : World) :
  exists d,
    trace (snd (snd (KeychainManager.get_password LA security account prompt (k, w))))
    = trace w ++ Call_is_available :: d
    /\ (forall w1, touchid.is_available LA w = (Return true, w1) ->
                   Call_authenticate prompt ∈ d).
Proof.
  destruct (is_available_returns LA w) as (b & d & Hav & _).
  destruct b.
  - destruct (authenticate_logs LA prompt (log_events (Call_is_available :: d) w))
      as (ra & da & Hau & _).
    rewrite log_events_log_events in Hau.
    destruct ra as [[[] error]|e].
    + rewrite (get_password_granted LA security account prompt k _ _ _ _ Hav Hau).
      destruct (_get_password_fallback_runs security account
                  {| KeychainManager._last_error := None |}
                  (log_events ((Call_is_available :: d) ++ Call_authenticate prompt :: da) w))
        as (r & k' & ->).
      exists (d ++ Call_authenticate prompt :: da
                ++ [Ev_subprocess_run (find_password_args account)]).
      split.
      * cbn. list_assoc; reflexivity.
      * intros w1 _. apply elem_of_app. right. apply elem_of_cons. now left.
    + rewrite (get_password_denied LA security account prompt k _ _ _ _ Hav Hau).
      exists (d ++ Call_authenticate prompt :: da). split; [reflexivity|].
      intros w1 _. apply elem_of_app. right. apply elem_of_cons. now left.
    + rewrite (get_password_gate_raises LA security account prompt k _ _ _ _ Hav Hau).
      exists (d ++ Call_authenticate prompt :: da). split; [reflexivity|].
      intros w1 _. apply elem_of_app. right. apply elem_of_cons. now left.
  - rewrite (get_password_unavailable LA security account prompt k _ _ Hav).
    destruct (_get_password_fallback_runs security account
                {| KeychainManager._last_error := None |}
                (log_events (Call_is_available :: d) w))
      as (r & k' & ->).
    exists (d ++ [Ev_subprocess_run (find_password_args account)]). split.
    + cbn. list_assoc; reflexivity.
    + intros w1 H. rewrite Hav in H. discriminate.
Qed.

(** Past the two existence checks, the probe ends in the world
    [get_password] left, or in one that the client's calls extended. *)
Lemma is_session_valid_probes (username : string) (c : ICloudClient.t) (w : World) :
  fst (KeychainManager.has_password security username (ICloudClient.keychain c, w))
  = Return true ->
  is_Some (session_dir w !! username) ->
  let '(r, (c', w')) :=
    ICloudClient.is_session_valid LA security icloud username (c, w) in
  (exists d,
      trace w'
      = trace (snd (snd (KeychainManager.get_password LA security username
                           "Check iCloud session"
                           (ICloudClient.keychain c, probe_world security username w))))
        ++ d)
  /\ (r = Return true ->
      exists client,
        ICloudClient._api c' = Some client
        /\ ICloudClient._username c' = Some username
        /\ apple_id client = username
        /\ (length (trace w) < created_at client)%nat).
Proof.
  intros Hhas Hcookie.
  unfold ICloudClient.is_session_valid, bind, ICloudClient.on_keychain, zoom.
  simpl_state.
  destruct (has_password_runs security username (ICloudClient.keychain c) w) as (b & Hb).
  rewrite Hb in Hhas |- *. simpl_state. injection Hhas as ->. simpl_state.
  unfold ICloudClient.io at 1, zoom, ICloudClient.cookie_exists. simpl_state.
  fold (probe_world security username w).
  change (session_dir (after_run security (find_item_args username) w))
    with (session_dir w).
  rewrite bool_decide_eq_true_2 by assumption. simpl_state.
  unfold try_except, bind, ICloudClient.on_keychain, zoom. simpl_state.
  destruct (get_password_trace username "Check iCloud session"
              (ICloudClient.keychain c) (probe_world security username w))
    as (dg & Hdg & _).
  destruct (KeychainManager.get_password LA security username "Check iCloud session"
              (ICloudClient.keychain c, probe_world security username w))
    as [[[p|]|e] [k_g w_g]] eqn:Hget; simpl_state.
  2, 3: solve [unfold ret; cbn [fst snd]; split; [exists []; now rewrite app_nil_r|discriminate]].
  destruct (PyStr.truthy p) eqn:Hp; simpl_state.
  2: solve [unfold ret; cbn [fst snd]; split; [exists []; now rewrite app_nil_r|discriminate]].
  unfold ICloudClient.io, zoom. simpl_state.
  pose proof (PyiCloudService_new_world icloud username p w_g) as Hwl.
  pose proof (PyiCloudService_new_client icloud username p w_g) as Hcl.
  destruct (ICloudClient.PyiCloudService_new icloud username p w_g)
    as [[client|e] w_l]; simpl_state; cbn [snd] in Hwl.
  2: { unfold ret. split; [|discriminate]. subst w_l. now exists [Ev_login username p]. }
  unfold ICloudClient.set_api, ICloudClient.set_username. simpl_state.
  unfold ICloudClient.requires_2fa, ask.
  assert (Hclient : apple_id client = username /\ (length (trace w) < created_at client)%nat).
  { rewrite (Hcl w_l client eq_refl). cbn [apple_id created_at snd] in *. split; [reflexivity|].
    rewrite Hdg. unfold probe_world, after_run, log_event. cbn [trace log_events set_keychain_items].
    rewrite !length_app. cbn. lia. }
  destruct (icloud_requires_2fa icloud client w_l) as [[]|e]; simpl_state; unfold ret.
  all: split; [subst w_l; exists [Ev_login username p; Ev_requires_2fa client];
              cbn; list_assoc; reflexivity|].
  all: try discriminate.
  intros _. exists client. tauto.
Qed.

End ProbePrompts.

(** C10.  When the keychain has an item for the account and the session
    directory an entry, [is_session_valid] calls [get_password]: the gate is
    asked whether it is available and, when it is, its [authenticate] is
    called with the prompt "Check iCloud session", where [has_password] only
    runs the utility; and when the probe says yes, [_api] and [_username]
    hold the client just built and the account. *)
Theorem is_session_valid_consults_gate
    (LA : LocalAuthentication) (security : Program) (icloud : PyiCloud)
    (username : string) (c : ICloudClient.t) (w : World) :
  fst (KeychainManager.has_password security username (ICloudClient.keychain c, w))
  = Return true ->
  is_Some (session_dir w !! username) ->
  let '(r, (c', w')) :=
    ICloudClient.is_session_valid LA security icloud username (c, w) in
  Call_is_available ∈ events_since w w'
  /\ (forall w1,
        touchid.is_available LA (probe_world security username w) = (Return true, w1) ->
        Call_authenticate "Check iCloud session" ∈ events_since w w')
  /\ events_since w
       (snd (snd (KeychainManager.has_password security username
                    (ICloudClient.keychain c, w))))
     = [Ev_subprocess_run (find_item_args username)]
  /\ (r = Return true ->
      exists client,
        ICloudClient._api c' = Some client
        /\ ICloudClient._username c' = Some username
        /\ apple_id client = username
        /\ (length (trace w) < created_at client)%nat).
Proof.
  intros Hhas Hcookie.
  pose proof (is_session_valid_probes LA security icloud username c w Hhas Hcookie) as H.
  destruct (get_password_trace LA security username "Check iCloud session"
              (ICloudClient.keychain c) (probe_world security username w))
    as (dg & Hdg & Hprompt).
  destruct (ICloudClient.is_session_valid LA security icloud username (c, w))
    as [r [c' w']].
  destruct H as ((d & Hd) & Hyes).
  assert (Hev : events_since w w'
                = [Ev_subprocess_run (find_item_args username); Ev_exists username]
                    ++ Call_is_available :: dg ++ d).
  { apply events_since_app. rewrite Hd, Hdg.
    unfold probe_world, after_run, log_event. cbn [trace log_events set_keychain_items].
    list_assoc; reflexivity. }
  rewrite Hev.
  split; [|split; [|split; [|exact Hyes]]].
  - apply elem_of_app. right. apply elem_of_cons. now left.
  - intros w1 Hav. apply elem_of_app. right. apply elem_of_cons. right.
    apply elem_of_app. left. now apply (Hprompt w1).
  - destruct (has_password_runs security username (ICloudClient.keychain c) w) as (b & ->).
    cbn [snd]. unfold after_run. rewrite events_since_set_keychain_items.
    apply events_since_log_events.
Qed.

(** C10 with everything in place and Touch ID present. *)
Lemma is_session_valid_consults_gate_witness :
  let '(r, (c', w')) :=
    ICloudClient.is_session_valid Demo.touch_id_granting Security.run Demo.icloud_trusted
      Demo.alice (ICloudClient.new, Demo.set_up) in
  r = Return true
  /\ Call_authenticate "Check iCloud session" ∈ events_since Demo.set_up w'
  /\ ICloudClient._username c' = Some Demo.alice.
Proof.
  pose proof (is_session_valid_consults_gate Demo.touch_id_granting Security.run
                Demo.icloud_trusted Demo.alice ICloudClient.new Demo.set_up
                eq_refl (ex_intro _ CookieFile eq_refl)) as H.
  destruct (ICloudClient.is_session_valid Demo.touch_id_granting Security.run
              Demo.icloud_trusted Demo.alice (ICloudClient.new, Demo.set_up))
    as [r [c' w']] eqn:E.
  destruct H as (_ & Hprompt & _ & Hyes).
  assert (Hr : r = Return true).
  { apply (f_equal fst) in E. cbn [fst] in E. rewrite <- E. vm_compute. reflexivity. }
  split; [exact Hr|]. split.
  - eapply Hprompt. reflexivity.
  - destruct (Hyes Hr) as (client & _ & Hu & _). exact Hu.
Defined.

(** ** The status-code table *)

(** C8, as the code has it.  A status of the table gives the table's
    message followed by [" (error N)"]; every other status gives
    ["Unknown security error (error N)"]; in both cases [N] is the status
    in decimal, so the raw code is always in the message. *)
Theorem get_security_error_message_spec (status : Z) :
  (forall msg,
      SEC_ERROR_MESSAGES !! status = Some msg ->
      get_security_error_message status
      = msg +:+ " (error " +:+ PyStr.of_int status +:+ ")")
  /\ (SEC_ERROR_MESSAGES !! status = None ->
      get_security_error_message status
      = "Unknown security error (error " +:+ PyStr.of_int status +:+ ")")
  /\ exists prefix,
      get_security_error_message status
      = prefix +:+ " (error " +:+ PyStr.of_int status +:+ ")".
Proof.
  unfold get_security_error_message.
  destruct (SEC_ERROR_MESSAGES !! status) as [m|].
  - split; [now intros msg [= ->]|]. split; [discriminate|]. now exists m.
  - split; [discriminate|]. split; [reflexivity|].
    now exists "Unknown security error".
Qed.

(** C8 on a status of the table and on one outside it. *)
Lemma get_security_error_message_spec_witness :
  get_security_error_message (-25295)
  = "The specified item could not be found in the keychain (error -25295)"
  /\ get_security_error_message 7 = "Unknown security error (error 7)".
Proof.
  destruct (get_security_error_message_spec (-25295)) as (Hin & _ & _).
  destruct (get_security_error_message_spec 7) as (_ & Hout & _).
  split.
  - now rewrite (Hin "The specified item could not be found in the keychain").
  - now rewrite Hout.
Defined.

(** C8 as stated fails on the wording: a status outside the table does not
    give ["unknown error (code N)"]. *)
Lemma unknown_status_wording :
  SEC_ERROR_MESSAGES !! 7 = None
  /\ get_security_error_message 7 <> "unknown error (code 7)".
Proof. split; [reflexivity|]. vm_compute. discriminate. Qed.

Example get_security_error_message_entitlement :
  get_security_error_message (-34018)
  = "A required entitlement is missing (code signing issue) (error -34018)".
Proof. vm_compute. reflexivity. Qed.

(** ** Further properties of the three modules *)

(** Idempotent delete: on a working keychain with no item for the account,
    [delete_password] returns [True] and changes nothing, and
    [has_password] is [False] before and after. *)
Theorem delete_password_absent (account : string) (k : KeychainManager.t) (w : World) :
  security_installed w = true ->
  PyStr.has_nul account = false ->
  keychain_items w !! (SERVICE_NAME, account) = None ->
  exists w',
    KeychainManager.delete_password Security.run account (k, w) = (Return true, (k, w'))
    /\ keychain_items w' = keychain_items w
    /\ fst (KeychainManager.has_password Security.run account (k, w)) = Return false
    /\ fst (KeychainManager.has_password Security.run account (k, w')) = Return false.
Proof.
  intros Hi Hn Habsent.
  assert (Hhas : forall w0, security_installed w0 = true ->
                   keychain_items w0 !! (SERVICE_NAME, account) = None ->
                   fst (KeychainManager.has_password Security.run account (k, w0))
                   = Return false).
  { intros w0 Hi0 Ha0.
    unfold KeychainManager.has_password, KeychainManager._has_password_fallback,
      try_except, bind, KeychainManager.io, zoom.
    cbn [fst snd]. fold (find_item_args account).
    rewrite subprocess_run_eq, (run_find_item account w0 Hi0 Hn), Ha0. reflexivity. }
  unfold KeychainManager.delete_password, KeychainManager._delete_password_fallback,
    try_except, bind, KeychainManager.io, zoom.
  cbn [fst snd]. fold (delete_args account).
  rewrite subprocess_run_eq. unfold after_run.
  rewrite (run_delete account w Hi Hn), Habsent. cbn [fst snd].
  eexists. split; [reflexivity|].
  cbn [keychain_items set_keychain_items].
  rewrite delete_id by assumption.
  split; [reflexivity|]. split; [now apply Hhas|].
  apply Hhas; cbn; assumption.
Qed.

(** Deleting where nothing is stored, on a fresh machine. *)
Lemma delete_password_absent_witness :
  fst (KeychainManager.delete_password Security.run Demo.alice
         (KeychainManager.new, Demo.fresh))
  = Return true.
Proof.
  destruct (delete_password_absent Demo.alice KeychainManager.new Demo.fresh
              eq_refl eq_refl eq_refl) as (w' & -> & _).
  reflexivity.
Defined.

(** A refused login: [authenticate] raises [AuthenticationError] with the
    client's message after "Login failed: "; [_api] is not assigned, and
    after the login no further call is made. *)
Theorem authenticate_login_rejected
    (LA : LocalAuthentication) (security : Program) (icloud : PyiCloud)
    (username secret msg : string) (callback : option (World -> Outcome string))
    (c : ICloudClient.t) (w w1 : World) :
  ICloudClient.PyiCloudService_new icloud username secret (log_event Ev_mkdir w)
  = (Raise (PyiCloudFailedLoginException msg), w1) ->
  exists c',
    ICloudClient.authenticate LA security icloud username (Some secret) callback (c, w)
    = (Raise (AuthenticationError ("Login failed: " +:+ msg)), (c', w1))
    /\ ICloudClient._api c' = ICloudClient._api c
    /\ ICloudClient._username c' = Some username
    /\ events_since w w1 = [Ev_mkdir; Ev_login username secret].
Proof.
  intros H. eexists. split; [now apply authenticate_login_refused|].
  repeat split.
  pose proof (PyiCloudService_new_world icloud username secret (log_event Ev_mkdir w)) as Hw.
  rewrite H in Hw. cbn [snd] in Hw. subst w1.
  apply events_since_app. cbn. list_assoc. reflexivity.
Qed.

(** A wrong password on a fresh machine. *)
Lemma authenticate_login_rejected_witness :
  fst (ICloudClient.authenticate Demo.no_touch_id Security.run Demo.icloud_refusing
         Demo.alice (Some "wrong") None (ICloudClient.new, Demo.fresh))
  = Raise (AuthenticationError "Login failed: Invalid email/password combination.").
Proof.
  destruct (authenticate_login_rejected Demo.no_touch_id Security.run Demo.icloud_refusing
              Demo.alice "wrong" "Invalid email/password combination." None
              ICloudClient.new Demo.fresh _ eq_refl) as (c' & -> & _).
  reflexivity.
Defined.

Section SecondFactorAccepted.
Variable LA : LocalAuthentication.
Variable security : Program.
Variable icloud : PyiCloud.

(** The accepted code: [authenticate] goes on to the question of trust. *)
Lemma authenticate_valid_code (username secret code : string)
    (callback : World -> Outcome string) (trusted : bool)
    (c : ICloudClient.t) (w w1 w2 w3 w4 w5 : World) (client : PyiCloudService) :
  ICloudClient.PyiCloudService_new icloud username secret (log_event Ev_mkdir w)
  = (Return client, w1) ->
  ICloudClient.requires_2fa icloud client w1 = (Return true, w2) ->
  ICloudClient.call_twofa_callback callback w2 = (Return code, w3) ->
  ICloudClient.validate_2fa_code icloud client code w3 = (Return true, w4) ->
  ICloudClient.is_trusted_session icloud client w4 = (Return trusted, w5) ->
  ICloudClient.authenticate LA security icloud username (Some secret) (Some callback) (c, w)
  = (if trusted then
       (Return true,
        ({| ICloudClient.keychain := ICloudClient.keychain c;
            ICloudClient._api := Some client;
            ICloudClient._username := Some username |}, w5))
     else
       (match fst (ICloudClient.trust_session icloud client w5) with
        | Return _ => Return true
        | Raise e => Raise e
        end,
        ({| ICloudClient.keychain := ICloudClient.keychain c;
            ICloudClient._api := Some client;
            ICloudClient._username := Some username |},
         snd (ICloudClient.trust_session icloud client w5)))).
Proof.
  intros H1 H2 H3 H4 H5.
  unfold ICloudClient.authenticate, bind, try_except, ret, raise, ICloudClient.set_username,
    ICloudClient.set_api, ICloudClient.io, ICloudClient.mkdir_cookie_dir, log, zoom.
  simpl_state. rewrite H1. simpl_state. rewrite H2. simpl_state.
  rewrite H3. simpl_state. rewrite H4. simpl_state. rewrite H5. simpl_state.
  destruct trusted; simpl_state; [reflexivity|].
  now destruct (ICloudClient.trust_session icloud client w5) as [[t|e] w6].
Qed.

End SecondFactorAccepted.

(** The second factor accepted: [authenticate] returns [True]; the trust
    operation is called once when the session is not yet trusted and not at
    all when it already is; [_api] holds the client. *)
Theorem authenticate_valid_2fa_code
    (LA : LocalAuthentication) (security : Program) (icloud : PyiCloud)
    (username secret code : string) (callback : World -> Outcome string)
    (trusted reply : bool) (c : ICloudClient.t) (w w1 w2 w3 w4 w5 w6 : World)
    (client : PyiCloudService) :
  ICloudClient.PyiCloudService_new icloud username secret (log_event Ev_mkdir w)
  = (Return client, w1) ->
  ICloudClient.requires_2fa icloud client w1 = (Return true, w2) ->
  ICloudClient.call_twofa_callback callback w2 = (Return code, w3) ->
  ICloudClient.validate_2fa_code icloud client code w3 = (Return true, w4) ->
  ICloudClient.is_trusted_session icloud client w4 = (Return trusted, w5) ->
  (trusted = false ->
   ICloudClient.trust_session icloud client w5 = (Return reply, w6)) ->
  exists c' w',
    ICloudClient.authenticate LA security icloud username (Some secret) (Some callback) (c, w)
    = (Return true, (c', w'))
    /\ ICloudClient._api c' = Some client
    /\ w' = (if trusted then w5 else w6)
    /\ events_since w w'
       = [Ev_mkdir; Ev_login username secret; Ev_requires_2fa client; Ev_twofa_callback;
          Ev_validate_2fa_code client code; Ev_is_trusted_session client]
           ++ (if trusted then [] else [Ev_trust_session client]).
Proof.
  intros H1 H2 H3 H4 H5 H6.
  rewrite (authenticate_valid_code LA security icloud username secret code callback trusted
             c w w1 w2 w3 w4 w5 client H1 H2 H3 H4 H5).
  pose proof (PyiCloudService_new_world icloud username secret (log_event Ev_mkdir w)) as Hw1.
  rewrite H1 in Hw1. cbn [snd] in Hw1.
  unfold ICloudClient.requires_2fa, ask in H2. injection H2 as _ Hw2.
  unfold ICloudClient.call_twofa_callback, ask in H3. injection H3 as _ Hw3.
  pose proof (validate_2fa_code_world icloud client code w3) as Hw4.
  rewrite H4 in Hw4. cbn [snd] in Hw4.
  unfold ICloudClient.is_trusted_session, ask in H5. injection H5 as _ Hw5.
  assert (Ht : trace w5 = trace w ++ [Ev_mkdir; Ev_login username secret;
                                       Ev_requires_2fa client; Ev_twofa_callback;
                                       Ev_validate_2fa_code client code;
                                       Ev_is_trusted_session client]).
  { subst w5 w4 w3 w2 w1. cbn. list_assoc. reflexivity. }
  destruct trusted.
  - eexists _, _. split; [reflexivity|]. repeat split.
    now apply events_since_app.
  - specialize (H6 eq_refl).
    pose proof (trust_session_world icloud client w5) as Hw6.
    rewrite H6 in Hw6 |- *. cbn [fst snd] in Hw6 |- *.
    eexists _, _. split; [reflexivity|]. repeat split.
    apply events_since_app. rewrite Hw6. cbn. rewrite Ht. list_assoc. reflexivity.
Qed.

(** The right code on a fresh machine: one trust call, and the cookie file
    is there afterwards. *)
Lemma authenticate_valid_2fa_code_witness :
  exists c' w',
    ICloudClient.authenticate Demo.no_touch_id Security.run (Demo.icloud_2fa "123456")
      Demo.alice (Some "p@ss1") (Some (Demo.typing "123456"))
      (ICloudClient.new, Demo.fresh)
    = (Return true, (c', w'))
    /\ session_dir w' !! Demo.alice = Some CookieFile.
Proof.
  destruct (authenticate_valid_2fa_code Demo.no_touch_id Security.run
              (Demo.icloud_2fa "123456") Demo.alice "p@ss1" "123456" (Demo.typing "123456")
              false true ICloudClient.new Demo.fresh _ _ _ _ _ _ _
              eq_refl eq_refl eq_refl eq_refl eq_refl (fun _ => eq_refl))
    as (c' & w' & Hrun & _ & Hw' & _).
  exists c', w'. split; [exact Hrun|]. rewrite Hw'. reflexivity.
Defined.


(** The scenario of one account: store and read the credential; log in
    with the second factor ["123456"]; the probe says yes; after
    [clear_session] the probe says no and the credential is still there. *)
Example alice_scenario :
  let LA := Demo.touch_id_granting in
  let icloud := Demo.icloud_remembering "123456" in
  let script :=
    stored <- ICloudClient.on_keychain
                (KeychainManager.store_password Security.run Demo.alice "p@ss1" true) ;;
    secret <- ICloudClient.on_keychain
                (KeychainManager.get_password LA Security.run Demo.alice
                   "Authenticate to access credentials") ;;
    logged_in <- ICloudClient.authenticate LA Security.run icloud Demo.alice
                   (Some "p@ss1") (Some (Demo.typing "123456")) ;;
    valid <- ICloudClient.is_session_valid LA Security.run icloud Demo.alice ;;
    ICloudClient.clear_session Demo.alice ;;
    valid_after <- ICloudClient.is_session_valid LA Security.run icloud Demo.alice ;;
    has_after <- ICloudClient.on_keychain
                   (KeychainManager.has_password Security.run Demo.alice) ;;
    ret (stored, secret, logged_in, valid, valid_after, has_after) in
  fst (script (ICloudClient.new, Demo.fresh))
  = Return (true, Some "p@ss1", true, true, false, true).
Proof. vm_compute. reflexivity. Qed.

(** ** The gate on its own *)

Section GateFacts.
Variable LA : LocalAuthentication.

(** [is_available] never raises, even when the framework does, and never
    shows the prompt: it asks at most whether the policy can be evaluated,
    and leaves the keychain and the session directory alone. *)
Theorem is_available_never_prompts (w : World) :
  exists b d,
    touchid.is_available LA w = (Return b, log_events d w)
    /\ (d = [Call_is_available] \/ d = [Call_is_available; Ev_canEvaluatePolicy])
    /\ (b = true ->
        exists error,
          la_canEvaluatePolicy LA (log_event Call_is_available w) = Return (true, error)).
Proof.
  unfold touchid.is_available, bind, try_except, log, touchid.import_LocalAuthentication,
    ask, ret.
  cbn [fst snd].
  destruct (la_importable LA _).
  - destruct (la_canEvaluatePolicy LA _) as [[b e]|e] eqn:E.
    + exists b, [Call_is_available; Ev_canEvaluatePolicy].
      split; [now norm_log|]. split; [now right|]. intros ->. eauto.
    + exists false, [Call_is_available; Ev_canEvaluatePolicy].
      split; [destruct e; now norm_log|]. split; [now right|discriminate].
  - exists false, [Call_is_available]. split; [reflexivity|]. split; [now left|discriminate].
Qed.

(** The five ways [authenticate] can end. *)
Lemma touchid_authenticate_cases (reason : string) (w : World) :
  let w0 := log_event (Call_authenticate reason) w in
  let w1 := log_events [Call_authenticate reason; Ev_canEvaluatePolicy] w in
  let w2 := log_events [Call_authenticate reason; Ev_canEvaluatePolicy;
                        Ev_evaluatePolicy reason] w in
  (la_importable LA w0 = false
   /\ touchid.authenticate LA reason w
      = (Return (false, Some "LocalAuthentication framework not available"), w0))
  \/ (la_importable LA w0 = true
      /\ ((exists e, la_canEvaluatePolicy LA w0 = Raise e
                     /\ touchid.authenticate LA reason w = (Raise e, w1))
          \/ (exists error,
                 la_canEvaluatePolicy LA w0 = Return (false, error)
                 /\ touchid.authenticate LA reason w
                    = (Return (false,
                               Some (match error with
                                     | Some description => description
                                     | None => "Touch ID not available"
                                     end)), w1))
          \/ (exists error,
                 la_canEvaluatePolicy LA w0 = Return (true, error)
                 /\ touchid.authenticate LA reason w
                    = (match la_evaluatePolicy LA reason w1 with
                       | Return (success, auth_error) => Return (success, auth_error)
                       | Raise e => Raise e
                       end, w2)))).
Proof.
  unfold touchid.authenticate, bind, try_except, log, touchid.import_LocalAuthentication,
    ask, ret.
  cbn [fst snd].
  destruct (la_importable LA _) eqn:Himp; [right; split; [reflexivity|]|left; split; reflexivity].
  cbn [negb].
  destruct (la_canEvaluatePolicy LA _) as [[[] error]|e] eqn:Hcan; cbn [negb].
  - right. right. exists error. split; [reflexivity|].
    norm_log. destruct (la_evaluatePolicy LA reason _) as [[s er]|e]; reflexivity.
  - right. left. exists error. split; [reflexivity|]. now norm_log.
  - left. exists e. split; [reflexivity|]. now norm_log.
Qed.

(** [authenticate] reports success only when the prompt was shown and the
    platform replied success to it; in every run the prompt is shown at most
    once, with the caller's reason, and only after the platform said the
    policy can be evaluated. *)
Theorem touchid_authenticate_prompts_once (reason : string) (w : World) :
  let '(r, w') := touchid.authenticate LA reason w in
  (events_since w w' = [Call_authenticate reason]
   \/ events_since w w' = [Call_authenticate reason; Ev_canEvaluatePolicy]
   \/ (events_since w w' = [Call_authenticate reason; Ev_canEvaluatePolicy;
                            Ev_evaluatePolicy reason]
       /\ exists error,
           la_canEvaluatePolicy LA (log_event (Call_authenticate reason) w)
           = Return (true, error)))
  /\ (forall error,
        r = Return (true, error) ->
        Ev_evaluatePolicy reason ∈ events_since w w'
        /\ la_evaluatePolicy LA reason
             (log_events [Call_authenticate reason; Ev_canEvaluatePolicy] w)
           = Return (true, error)).
Proof.
  destruct (touchid_authenticate_cases reason w)
    as [[_ ->]|[_ [(e & _ & ->)|[(error & _ & ->)|(error & Hcan & ->)]]]];
    unfold log_event; rewrite events_since_log_events.
  - split; [now left|discriminate].
  - split; [right; now left|discriminate].
  - split; [right; now left|discriminate].
  - split; [right; right; split; [reflexivity|eauto]|].
    intros err H. split; [set_solver|].
    destruct (la_evaluatePolicy LA reason _) as [[s er]|e]; congruence.
Qed.

End GateFacts.

(** ** The store on its own *)

Section StoreAlone.
Variable security : Program.

(** [store_password] never raises and never reaches the gate: it runs the
    utility to delete and, unless that run raised, once more to add, and
    nothing else.  When it returns [True] no error is recorded; when it
    returns [False] an error message always is. *)
Theorem store_password_gate_free (account secret : string) (b : bool)
    (k : KeychainManager.t) (w : World) :
  exists r k' w',
    KeychainManager.store_password security account secret b (k, w) = (Return r, (k', w'))
    /\ (events_since w w' = [Ev_subprocess_run (delete_args account)] /\ r = false
        \/ events_since w w' = [Ev_subprocess_run (delete_args account);
                                Ev_subprocess_run (add_args account secret)])
    /\ session_dir w' = session_dir w
    /\ (if r then KeychainManager._last_error k' = None
        else exists msg, KeychainManager._last_error k' = Some msg).
Proof.
  unfold KeychainManager.store_password, KeychainManager._store_password_fallback,
    try_except, bind, KeychainManager.io, zoom, KeychainManager.set_last_error, ret.
  cbn [fst snd]. fold (delete_args account) (add_args account secret).
  rewrite !subprocess_run_eq.
  destruct (fst (security (delete_args account) w)) as [p|e]; cbn [fst snd].
  2: { destruct e; cbn [fst snd]; eexists _, _, _; (split; [reflexivity|]);
       unfold after_run; rewrite events_since_set_keychain_items, events_since_log_events;
       (split; [now left|]); (split; [reflexivity|]); eauto. }
  assert (Hev : events_since w
                  (after_run security (add_args account secret)
                     (after_run security (delete_args account) w))
                = [Ev_subprocess_run (delete_args account);
                   Ev_subprocess_run (add_args account secret)]).
  { apply events_since_app. cbn. list_assoc. reflexivity. }
  destruct (fst (security (add_args account secret) _)) as [q|e]; cbn [fst snd].
  - destruct (returncode q =? 0); cbn [negb fst snd].
    + eexists _, _, _. split; [reflexivity|]. rewrite Hev. split; [now right|].
      split; reflexivity.
    + destruct (PyStr.truthy (PyStr.strip (stderr q))); cbn [fst snd];
        eexists _, _, _; (split; [reflexivity|]); rewrite Hev;
        (split; [now right|]); (split; [reflexivity|]); eauto.
  - destruct e; cbn [fst snd]; eexists _, _, _; (split; [reflexivity|]); rewrite Hev;
      (split; [now right|]); (split; [reflexivity|]); eauto.
Qed.

End StoreAlone.

Lemma run_add_refused (account secret : string) (w : World) :
  security_installed w = true ->
  PyStr.has_nul account || PyStr.has_nul secret = true ->
  Security.run (add_args account secret) w
  = (Raise (OtherException "embedded null byte"), keychain_items w).
Proof.
  intros Hi Hn. unfold Security.run. now rewrite Hi, existsb_has_nul_add, Hn.
Qed.

Lemma run_missing (args : list string) (w : World) :
  security_installed w = false ->
  Security.run args w
  = (Raise (FileNotFoundError "[Errno 2] No such file or directory: '/usr/bin/security'"),
     keychain_items w).
Proof. intros Hi. unfold Security.run. now rewrite Hi. Qed.

(** [store_password] is not atomic: the old item is deleted before the new
    one is added, so when the add step fails (here on a secret with a NUL
    character, which [subprocess.run] refuses) the call returns [False] and
    the account is left with no item at all. *)
Theorem failed_store_loses_old_item (account old secret : string) (b : bool)
    (k : KeychainManager.t) (w : World) :
  security_installed w = true ->
  PyStr.has_nul account = false ->
  PyStr.has_nul secret = true ->
  keychain_items w !! (SERVICE_NAME, account) = Some old ->
  exists w',
    KeychainManager.store_password Security.run account secret b (k, w)
    = (Return false,
       ({| KeychainManager._last_error := Some "Unexpected error: embedded null byte" |}, w'))
    /\ keychain_items w' = delete (SERVICE_NAME, account) (keychain_items w).
Proof.
  intros Hi Hn Hs Hold.
  unfold KeychainManager.store_password, KeychainManager._store_password_fallback,
    try_except, bind, KeychainManager.io, zoom, KeychainManager.set_last_error, ret.
  cbn [fst snd]. fold (delete_args account) (add_args account secret).
  rewrite !subprocess_run_eq. unfold after_run.
  rewrite (run_delete account w Hi Hn), Hold. cbn [fst snd].
  rewrite !run_add_refused by (try exact Hi; now rewrite Hs, orb_true_r).
  cbn. eexists. split; reflexivity.
Qed.

(** A credential replaced by a secret the utility refuses. *)
Lemma failed_store_loses_old_item_witness :
  exists st,
    KeychainManager.store_password Security.run Demo.alice
      (String "000"%char "pw") true (KeychainManager.new, Demo.set_up)
    = (Return false, st)
    /\ keychain_items (snd st) !! (SERVICE_NAME, Demo.alice) = None.
Proof.
  destruct (failed_store_loses_old_item Demo.alice "p@ss1" (String "000"%char "pw") true
              KeychainManager.new Demo.set_up eq_refl eq_refl eq_refl eq_refl)
    as (w' & Hrun & Hkeys).
  eexists. split; [exact Hrun|]. cbn [snd]. rewrite Hkeys. apply lookup_delete_eq.
Defined.

(** [has_password] on a working keychain: [True] exactly when the account
    has an item; it runs the utility once, changes nothing, records no
    error and never reaches the gate. *)
Lemma has_password_iff (account : string) (k : KeychainManager.t) (w : World) :
  security_installed w = true ->
  PyStr.has_nul account = false ->
  KeychainManager.has_password Security.run account (k, w)
  = (Return (bool_decide (is_Some (keychain_items w !! (SERVICE_NAME, account)))),
     (k, log_events [Ev_subprocess_run (find_item_args account)] w)).
Proof.
  intros Hi Hn.
  unfold KeychainManager.has_password, KeychainManager._has_password_fallback,
    try_except, bind, KeychainManager.io, zoom, ret.
  cbn [fst snd]. fold (find_item_args account).
  rewrite subprocess_run_eq. unfold after_run.
  rewrite (run_find_item account w Hi Hn).
  destruct (keychain_items w !! (SERVICE_NAME, account)) eqn:E; cbn [fst snd].
  - rewrite bool_decide_eq_true_2 by eauto. reflexivity.
  - rewrite bool_decide_eq_false_2 by (apply is_Some_None). reflexivity.
Qed.


Section ReadAlone.
Variable LA : LocalAuthentication.

(** Past an open gate, reading an account that has no item returns [None]
    with the error "No credentials found for this account": the caller can
    tell it from a denial, whose error starts with "Touch ID authentication
    failed". *)
Lemma get_password_absent (account prompt : string)
    (k : KeychainManager.t) (w : World) :
  gate_open LA prompt w ->
  security_installed w = true ->
  PyStr.has_nul account = false ->
  keychain_items w !! (SERVICE_NAME, account) = None ->
  exists w',
    KeychainManager.get_password LA Security.run account prompt (k, w)
    = (Return None,
       ({| KeychainManager._last_error := Some "No credentials found for this account" |},
        w'))
    /\ keychain_items w' = keychain_items w.
Proof.
  intros Hg Hi Hn Habsent.
  destruct (gate_open_world LA prompt w Hg) as (d & _ & Hget). rewrite Hget.
  unfold KeychainManager._get_password_fallback, try_except, bind, KeychainManager.io, zoom,
    KeychainManager.set_last_error, ret.
  cbn [fst snd]. fold (find_password_args account).
  rewrite subprocess_run_eq. unfold after_run.
  rewrite (run_find_password account (log_events d w) Hi Hn).
  cbn [keychain_items log_events]. rewrite Habsent. cbn.
  eexists. split; reflexivity.
Qed.

(** Deleting a stored credential: [delete_password] returns [True], the
    account's item is gone and the other items are as before; afterwards
    [has_password] is [False] and a read past an open gate finds nothing. *)
Theorem delete_password_removes (account secret prompt : string)
    (k : KeychainManager.t) (w : World) :
  security_installed w = true ->
  PyStr.has_nul account = false ->
  keychain_items w !! (SERVICE_NAME, account) = Some secret ->
  exists w',
    KeychainManager.delete_password Security.run account (k, w) = (Return true, (k, w'))
    /\ keychain_items w' = delete (SERVICE_NAME, account) (keychain_items w)
    /\ fst (KeychainManager.has_password Security.run account (k, w')) = Return false
    /\ (gate_open LA prompt w' ->
        fst (KeychainManager.get_password LA Security.run account prompt (k, w'))
        = Return None).
Proof.
  intros Hi Hn Hl.
  unfold KeychainManager.delete_password, KeychainManager._delete_password_fallback,
    try_except, bind, KeychainManager.io, zoom, ret.
  cbn [fst snd]. fold (delete_args account).
  rewrite subprocess_run_eq. unfold after_run.
  rewrite (run_delete account w Hi Hn), Hl. cbn [fst snd].
  eexists. split; [reflexivity|]. split; [reflexivity|]. split.
  - rewrite has_password_iff by assumption. cbn [fst keychain_items set_keychain_items].
    rewrite lookup_delete_eq, bool_decide_eq_false_2 by (apply is_Some_None). reflexivity.
  - intros Hg.
    destruct (get_password_absent account prompt k _ Hg) as (w' & -> & _);
      [assumption|assumption|apply lookup_delete_eq|reflexivity].
Qed.

End ReadAlone.

(** Deleting [alice]'s credential. *)
Lemma delete_password_removes_witness :
  exists w',
    KeychainManager.delete_password Security.run Demo.alice (KeychainManager.new, Demo.set_up)
    = (Return true, (KeychainManager.new, w'))
    /\ keychain_items w' !! (SERVICE_NAME, Demo.alice) = None.
Proof.
  destruct (delete_password_removes Demo.no_touch_id Demo.alice "p@ss1"
              "Authenticate to access credentials" KeychainManager.new Demo.set_up
              eq_refl eq_refl eq_refl) as (w' & Hrun & Hkeys & _).
  exists w'. split; [exact Hrun|]. rewrite Hkeys. apply lookup_delete_eq.
Defined.

(** ** The order of the calls in [authenticate] *)

Section CallOrder.
Variable LA : LocalAuthentication.
Variable security : Program.
Variable icloud : PyiCloud.



(** When the store gives a secret, [authenticate] goes on as if it had been
    passed. *)
Lemma authenticate_get_some (username secret : string)
    (callback : option (World -> Outcome string))
    (c : ICloudClient.t) (w : World) (k' : KeychainManager.t) (w' : World) :
  KeychainManager.get_password LA security username
    "Authenticate to access iCloud credentials" (ICloudClient.keychain c, w)
  = (Return (Some secret), (k', w')) ->
  ICloudClient.authenticate LA security icloud username None callback (c, w)
  = ICloudClient.authenticate LA security icloud username (Some secret) callback
      ({| ICloudClient.keychain := k'; ICloudClient._api := ICloudClient._api c;
          ICloudClient._username := ICloudClient._username c |}, w').
Proof.
  intros H.
  unfold ICloudClient.authenticate, bind, ICloudClient.set_username,
    ICloudClient.on_keychain, zoom.
  simpl_state. now rewrite H.
Qed.

End CallOrder.





(** ** The configuration file *)






(** ** The alias service *)




Section ServiceFacts.
Variable api : AliasAPI.


(** On a client that is not logged in, nothing is called. *)
Lemma hidemyemail_logged_out (m : Machine) :
  ICloudClient._api (local_client m) = None ->
  exists m',
    HideMyEmailService.hidemyemail m
    = (Err (Core (AuthenticationError
                    "Not authenticated. Run 'hide-my-email setup' first.")), m')
    /\ journal m' = journal m /\ same_but_journal m m'.
Proof.
  intros H. destruct m as [w d j c k]. cbn in H.
  unfold HideMyEmailService.hidemyemail, Run.on_client, AppM.core, ICloudClient.api.
  cbn [fst snd local_client world]. rewrite H.
  eexists. split; [reflexivity|]. now repeat split.
Qed.

End ServiceFacts.





Section ServiceWithoutLogin.
Variable api : AliasAPI.

Lemma hidemyemail_eq (w : World) (d : config.Disk) (j : list Call)
    (c : ICloudClient.t) (k : KeychainManager.t) :
  let m := {| world := w; disk := d; journal := j; local_client := c;
              local_keychain := k |} in
  HideMyEmailService.hidemyemail m
  = (match ICloudClient._api c with
     | Some handle => Ok handle
     | None => Err (Core (AuthenticationError
                            "Not authenticated. Run 'hide-my-email setup' first."))
     end, m).
Proof.
  unfold HideMyEmailService.hidemyemail, Run.on_client, AppM.core, ICloudClient.api.
  cbn [fst snd local_client world]. now destruct (ICloudClient._api c).
Qed.

(** On a client that is not logged in nothing reaches the service, and the
    methods differ in what they do about it: [search] and
    [get_by_email_or_id] raise [AuthenticationError], [create] raises
    [AliasOperationError] with that message after "Failed to create alias: ",
    and [update], [deactivate], [reactivate] and [delete] return [False]. *)
Theorem service_without_login (m : Machine) :
  ICloudClient._api (local_client m) = None ->
  let not_authenticated := "Not authenticated. Run 'hide-my-email setup' first." in
  (forall query,
      ends_quietly (AppM.bind (HideMyEmailService.search api query) list_of m)
        (Err (Core (AuthenticationError not_authenticated))) m)
  /\ (forall identifier,
        ends_quietly (HideMyEmailService.get_by_email_or_id api identifier m)
          (Err (Core (AuthenticationError not_authenticated))) m)
  /\ (forall label note,
        ends_quietly (HideMyEmailService.create api label note m)
          (Err (AliasOperationError ("Failed to create alias: " +:+ not_authenticated))) m)
  /\ (forall anonymous_id label note,
        ends_quietly (HideMyEmailService.update api anonymous_id label note m) (Ok false) m)
  /\ (forall anonymous_id,
        ends_quietly (HideMyEmailService.deactivate api anonymous_id m) (Ok false) m
        /\ ends_quietly (HideMyEmailService.reactivate api anonymous_id m) (Ok false) m
        /\ ends_quietly (HideMyEmailService.delete api anonymous_id m) (Ok false) m).
Proof.
  destruct m as [w d j c k]. cbn [local_client]. intros Hout. cbv zeta.
  pose proof (hidemyemail_eq w d j c k) as Hhme. cbn zeta in Hhme. rewrite Hout in Hhme.
  unfold ends_quietly, same_but_journal.
  repeat split;
    unfold HideMyEmailService.search, HideMyEmailService.get_by_email_or_id,
      HideMyEmailService.list_all, HideMyEmailService.create, HideMyEmailService.update,
      HideMyEmailService.deactivate, HideMyEmailService.reactivate, HideMyEmailService.delete,
      AppM.bind, AppM.try_except, list_of;
    rewrite Hhme; reflexivity.
Qed.

(** The four methods that change an alias never raise: whatever the
    service does, they return a boolean, after one call of the service at
    most. *)
Theorem mutations_never_raise (m : Machine) (anonymous_id label note : string) :
  returns_after_at_most (HideMyEmailService.update api anonymous_id label note m) m
    (Api_update_metadata anonymous_id label note)
  /\ returns_after_at_most (HideMyEmailService.deactivate api anonymous_id m) m
       (Api_deactivate anonymous_id)
  /\ returns_after_at_most (HideMyEmailService.reactivate api anonymous_id m) m
       (Api_reactivate anonymous_id)
  /\ returns_after_at_most (HideMyEmailService.delete api anonymous_id m) m
       (Api_delete anonymous_id).
Proof.
  destruct m as [w d j c k].
  pose proof (hidemyemail_eq w d j c k) as Hhme. cbn zeta in Hhme.
  unfold returns_after_at_most, same_but_journal.
  repeat apply conj;
    unfold HideMyEmailService.update, HideMyEmailService.deactivate,
      HideMyEmailService.reactivate, HideMyEmailService.delete,
      AppM.bind, AppM.try_except, HideMyEmailService.call;
    rewrite Hhme; destruct (ICloudClient._api c) as [handle|]; cbn [fst snd journal];
    try (now eauto);
    match goal with
    | |- context [match ?o with Return _ => _ | Raise _ => _ end] => destruct o
    end; cbn [fst snd journal record_call]; eauto.
Qed.

(** [create] raises nothing but [AliasOperationError].  It calls the
    service at most twice, [generate] and then [reserve]; [reserve] is
    called only with an address that [generate] returned, never with an
    empty one, and with the label and the note given; and the alias
    returned is the answer of [reserve]. *)
Theorem create_outcomes (m : Machine) (label note : string) :
  exists calls,
    journal (snd (HideMyEmailService.create api label note m)) = journal m ++ calls
    /\ same_but_journal m (snd (HideMyEmailService.create api label note m))
    /\ (calls = []
        \/ calls = [Api_generate]
        \/ exists handle generated email,
             calls = [Api_generate; Api_reserve email label note]
             /\ logged_in m handle
             /\ api_generate api handle m = Return generated
             /\ ApiData.hme generated = Some email
             /\ email <> "")
    /\ match fst (HideMyEmailService.create api label note m) with
       | Ok alias =>
           exists handle email data,
             calls = [Api_generate; Api_reserve email label note]
             /\ api_reserve api handle email label note (record_call Api_generate m)
                = Return (Some data)
             /\ alias = EmailAlias.from_api data
       | Err (AliasOperationError _) => True
       | Err _ => False
       end.
Proof.
  destruct m as [w d j c k].
  pose proof (hidemyemail_eq w d j c k) as Hhme. cbn zeta in Hhme.
  pose proof (hidemyemail_eq w d (j ++ [Api_generate]) c k) as Hhme'. cbn zeta in Hhme'.
  unfold HideMyEmailService.create, AppM.bind, AppM.try_except, HideMyEmailService.call,
    same_but_journal, logged_in.
  rewrite Hhme. destruct (ICloudClient._api c) as [handle|] eqn:Hc.
  2:{ exists []. cbn [fst snd journal]. rewrite app_nil_r. repeat split; eauto. }
  cbn [fst snd].
  destruct (api_generate api handle _) as [generated|e] eqn:Hgen.
  2:{ exists [Api_generate]. cbn [fst snd journal record_call]. repeat split; eauto. }
  cbn [fst snd record_call journal world disk local_client local_keychain].
  destruct (ApiData.hme generated) as [email|] eqn:Hhme_key; cbn [EmailAlias.get].
  2:{ exists [Api_generate]. cbn [fst snd journal record_call]. repeat split; eauto. }
  destruct (PyStr.truthy email) eqn:Hemail; cbn [negb].
  2:{ exists [Api_generate]. cbn [fst snd journal record_call]. repeat split; eauto. }
  unfold record_call; cbn [journal world disk local_client local_keychain].
  rewrite Hhme'. cbn [fst snd].
  assert (Hne : email <> "").
  { intros ->. discriminate Hemail. }
  exists [Api_generate; Api_reserve email label note].
  destruct (api_reserve api handle email label note _) as [[data|]|e] eqn:Hres;
    cbn [fst snd record_call journal world disk local_client local_keychain];
    [destruct (ApiData.truthy data) eqn:Hdata; cbn [negb fst snd journal world disk
       local_client local_keychain]| |];
    rewrite <- app_assoc; cbn [app];
    (split; [reflexivity|]); (split; [repeat split|]);
    (split; [right; right; exists handle, generated, email; repeat split; assumption|]);
    try exact I.
  exists handle, email, data. repeat split. exact Hres.
Qed.

End ServiceWithoutLogin.

(** Without a login [create] fails with the message of the client after
    "Failed to create alias: ", and [delete] answers [False]. *)
Lemma service_without_login_witness :
  fst (HideMyEmailService.create Demo2.api_two_aliases "Netflix" ""
         Demo2.logged_out_machine)
  = Err (AliasOperationError
           "Failed to create alias: Not authenticated. Run 'hide-my-email setup' first.")
  /\ fst (HideMyEmailService.delete Demo2.api_two_aliases "id-1" Demo2.logged_out_machine)
     = Ok false.
Proof.
  destruct (service_without_login Demo2.api_two_aliases Demo2.logged_out_machine eq_refl)
    as (_ & _ & Hcreate & _ & Hrest).
  split.
  - exact (proj1 (Hcreate "Netflix" "")).
  - exact (proj1 (proj2 (proj2 (Hrest "id-1")))).
Defined.


(** ** The commands: logging in *)

Lemma calls_since_app (m m' : Machine) (calls : list Call) :
  journal m' = journal m ++ calls -> calls_since m m' = calls.
Proof. unfold calls_since. intros ->. apply drop_app_length. Qed.

Lemma get_default_username_eq (d : config.Disk) :
  config.get_default_username d
  = (match config.config_file d with
     | config.Document config.JNotObject =>
         Raise (OtherException "AttributeError: object has no attribute 'get'")
     | _ => Return (default_account d)
     end, d).
Proof.
  unfold config.get_default_username, config.get_config, default_account, dict_on_disk,
    bind, ret, raise.
  destruct (config.config_file d) as [|msg| |[dict|]]; reflexivity.
Qed.

Lemma default_account_object (d : config.Disk) (username : string) :
  default_account d = Some username -> config_file_is_object_or_unusable d.
Proof.
  unfold default_account, dict_on_disk, config_file_is_object_or_unusable.
  destruct (config.config_file d) as [|msg| |[dict|]]; try exact (fun _ => I).
  rewrite lookup_empty. discriminate.
Qed.

Section LoginFacts.
Variable LA : LocalAuthentication.
Variable security : Program.
Variable icloud : PyiCloud.

(** When [get_password] raises, so does [authenticate]. *)
Lemma authenticate_get_raises (username : string)
    (callback : option (World -> Outcome string))
    (c : ICloudClient.t) (w : World) (e : Exn) (k' : KeychainManager.t) (w' : World) :
  KeychainManager.get_password LA security username
    "Authenticate to access iCloud credentials" (ICloudClient.keychain c, w)
  = (Raise e, (k', w')) ->
  ICloudClient.authenticate LA security icloud username None callback (c, w)
  = (Raise e,
     ({| ICloudClient.keychain := k'; ICloudClient._api := ICloudClient._api c;
         ICloudClient._username := Some username |}, w')).
Proof.
  intros H.
  unfold ICloudClient.authenticate, bind, ICloudClient.set_username,
    ICloudClient.on_keychain, zoom.
  simpl_state. now rewrite H.
Qed.

(** When [authenticate] returns, the client holds a handle for the account. *)
Lemma authenticate_returns_handle (username : string) (secret : option string)
    (callback : option (World -> Outcome string))
    (c c' : ICloudClient.t) (w w' : World) (b : bool) :
  ICloudClient.authenticate LA security icloud username secret callback (c, w)
  = (Return b, (c', w')) ->
  exists handle, ICloudClient._api c' = Some handle /\ apple_id handle = username.
Proof.
  assert (Hsome : forall secret c w,
    ICloudClient.authenticate LA security icloud username (Some secret) callback (c, w)
    = (Return b, (c', w')) ->
    exists handle, ICloudClient._api c' = Some handle /\ apple_id handle = username).
  { clear. intros secret c w.
    unfold ICloudClient.authenticate, bind, try_except, ret, raise,
      ICloudClient.set_username, ICloudClient.set_api, ICloudClient.io,
      ICloudClient.mkdir_cookie_dir, log, zoom.
    simpl_state.
    destruct (ICloudClient.PyiCloudService_new icloud username secret _)
      as [[client|e] w1] eqn:Hnew; simpl_state.
    2: { destruct e; simpl_state; intros H; discriminate H. }
    apply PyiCloudService_new_client in Hnew.
    assert (Hid : apple_id client = username) by now rewrite Hnew.
    clear Hnew.
    destruct (ICloudClient.requires_2fa icloud client w1) as [[[]|e] w2]; simpl_state;
      try (intros H; discriminate H).
    2: { intros H. injection H as _ <- _. eauto. }
    destruct callback as [cb|]; simpl_state; try (intros H; discriminate H).
    destruct (ICloudClient.call_twofa_callback cb w2) as [[code|e] w3]; simpl_state;
      try (intros H; discriminate H).
    destruct (ICloudClient.validate_2fa_code icloud client code w3) as [[[]|e] w4];
      simpl_state; try (intros H; discriminate H).
    destruct (ICloudClient.is_trusted_session icloud client w4) as [[[]|e] w5];
      simpl_state; try (intros H; discriminate H).
    - intros H. injection H as _ <- _. eauto.
    - destruct (ICloudClient.trust_session icloud client w5) as [[t|e] w6];
        simpl_state; try (intros H; discriminate H).
      intros H. injection H as _ <- _. eauto. }
  destruct secret as [secret|]; [apply Hsome|].
  destruct (KeychainManager.get_password LA security username
              "Authenticate to access iCloud credentials" (ICloudClient.keychain c, w))
    as [[[secret|]|e] [k1 w1]] eqn:Hget.
  - rewrite (authenticate_get_some LA security icloud username secret callback c w k1 w1 Hget).
    apply Hsome.
  - rewrite (authenticate_get_none LA security icloud username callback c w k1 w1 Hget).
    discriminate.
  - rewrite (authenticate_get_raises username callback c w e k1 w1 Hget). discriminate.
Qed.

End LoginFacts.

Ltac exit_lines :=
  rewrite <- ?app_assoc; cbn [app];
  first
    [ exists ["[red]No account configured.[/red]";
              "Run 'hme setup' first to configure your Apple ID."];
      split; [reflexivity|auto]
    | exists ["[red]No credentials found.[/red]";
              "Run 'hme setup' to configure your Apple ID."];
      split; [reflexivity|auto]
    | eexists [_]; split; [cbn [map]; reflexivity|right; right; eexists; reflexivity] ].

Section GetService.
Variable LA : LocalAuthentication.
Variable security : Program.
Variable icloud : PyiCloud.
Variable terminal : Terminal.

Lemma get_service_cases (m : Machine) :
  let '(r, m') := emails.get_service LA security icloud terminal m in
  disk m' = disk m
  /\ local_keychain m' = local_keychain m
  /\ match r with
     | Ok _ =>
         journal m' = journal m
         /\ exists username handle,
             default_account (disk m) = Some username
             /\ logged_in m' handle /\ apple_id handle = username
     | Err (Exit code) =>
         code = 1
         /\ exists lines,
             journal m' = journal m ++ map Print lines
             /\ (lines = ["[red]No account configured.[/red]";
                          "Run 'hme setup' first to configure your Apple ID."]
                 \/ lines = ["[red]No credentials found.[/red]";
                             "Run 'hme setup' to configure your Apple ID."]
                 \/ exists msg, lines = ["[red]Authentication failed:[/red] " +:+ msg])
     | Err (Core e) => is_AuthenticationError e = false /\ journal m' = journal m
     | Err _ => False
     end.
Proof.
  destruct m as [w d j c k].
  unfold emails.get_service, AppM.bind, Run.on_disk, AppM.core.
  cbn [disk]. rewrite get_default_username_eq.
  unfold default_account, dict_on_disk.
  destruct (config.config_file d) as [|msg| |[dict|]] eqn:Hfile.
  1-3: rewrite lookup_empty; cbn; repeat split; exit_lines.
  2: { cbn. repeat split. }
  destruct (dict !! "default_username") as [[username|]|] eqn:Hdict.
  2, 3: cbn; repeat split; exit_lines.
  unfold auth.new_client, AppM.try_except, Run.on_client, AppM.core, AppM.bind.
  cbn [fst snd set_disk set_local_client set_world world disk journal local_client
       local_keychain].
  destruct (ICloudClient.authenticate LA security icloud username None
              (Some (twofa_answer terminal)) (ICloudClient.new, w))
    as [[b|e] [c' w']] eqn:Hauth.
  - cbn. repeat split.
    destruct (authenticate_returns_handle LA security icloud _ _ _ _ _ _ _ _ Hauth)
      as (handle & Hh & Hid).
    exists username, handle. unfold logged_in. cbn. auto.
  - destruct e; cbn; repeat split; exit_lines.
Qed.



(** At a gate that denies, [get_password] returns [None] after calls of
    the gate only. *)
Lemma gate_denied_events (prompt : string) (w : World) :
  gate_denied LA prompt w ->
  exists d error,
    Forall (fun e => gate_event e = true) d
    /\ forall (account : string) (k : KeychainManager.t),
      KeychainManager.get_password LA security account prompt (k, w)
      = (Return None,
         ({| KeychainManager._last_error :=
               Some ("Touch ID authentication failed: " +:+ PyStr.of_optional error) |},
          log_events d w)).
Proof.
  intros (w1 & error & w2 & H1 & H2).
  destruct (is_available_returns LA w) as (b & d & Hav & Hd).
  rewrite Hav in H1. injection H1 as -> <-.
  destruct (authenticate_logs LA prompt (log_events (Call_is_available :: d) w))
    as (r & da & Hau & Hda).
  rewrite H2 in Hau. injection Hau as _ ->.
  rewrite log_events_log_events in H2.
  exists ((Call_is_available :: d) ++ Call_authenticate prompt :: da), error.
  split.
  - apply List.Forall_app. split.
    + destruct Hd as [-> | ->]; solve_Forall.
    + apply List.Forall_cons; [reflexivity|].
      eapply List.Forall_impl; [|exact Hda]. now intros e [-> | ->].
  - intros. eapply get_password_denied; [exact Hav|exact H2].
Qed.

(** A refused Touch ID prompt is reported as missing credentials: when the
    gate denies, [get_service] prints "No credentials found." and exits
    with code 1, whatever the keychain holds; the keychain is not read and
    no login is tried. *)
Theorem get_service_gate_refused (m : Machine) (username : string) :
  default_account (disk m) = Some username ->
  gate_denied LA "Authenticate to access iCloud credentials" (world m) ->
  exists m',
    emails.get_service LA security icloud terminal m = (Err (Exit 1), m')
    /\ calls_since m m'
       = [Print "[red]No credentials found.[/red]";
          Print "Run 'hme setup' to configure your Apple ID."]
    /\ Forall (fun e => gate_event e = true) (events_since (world m) (world m'))
    /\ keychain_items (world m') = keychain_items (world m)
    /\ session_dir (world m') = session_dir (world m)
    /\ ICloudClient._api (local_client m') = None.
Proof.
  destruct m as [w d j c k]. cbn [disk world]. intros Hdefault Hgate.
  pose proof (default_account_object d username Hdefault) as Hobject.
  destruct (gate_denied_events _ w Hgate) as (evs & error & Hevs & Hget).
  unfold emails.get_service, AppM.bind, Run.on_disk, AppM.core.
  cbn [disk]. rewrite get_default_username_eq, Hdefault.
  unfold config_file_is_object_or_unusable in Hobject.
  destruct (config.config_file d) as [|msg| |[dict|]]; try contradiction.
  all: unfold auth.new_client, AppM.try_except, Run.on_client, AppM.core, AppM.bind;
    cbn [fst snd set_disk set_local_client set_world world disk journal local_client
         local_keychain];
    rewrite (authenticate_get_none LA security icloud username _ ICloudClient.new w _ _
               (Hget username _));
    cbn; eexists; (split; [reflexivity|]); cbn;
    (split; [rewrite <- app_assoc; apply drop_app_length|]);
    (split; [now rewrite events_since_log_events|]); auto.
Qed.

End GetService.

(** [alice] cancels the Touch ID prompt of [hide-my-email list]. *)
Lemma get_service_gate_refused_witness :
  fst (emails.get_service Demo.touch_id_denying Security.run Demo.icloud_trusted
         (Demo2.person true "p@ss1") Demo2.set_up_machine)
  = Err (Exit 1).
Proof.
  destruct (get_service_gate_refused Demo.touch_id_denying Security.run Demo.icloud_trusted
              (Demo2.person true "p@ss1") Demo2.set_up_machine Demo.alice)
    as (m' & Hrun & _).
  - reflexivity.
  - unfold gate_denied. do 3 eexists. split; reflexivity.
  - now rewrite Hrun.
Defined.


(** ** The commands that change an alias *)

Section LookUp.
Variable LA : LocalAuthentication.
Variable security : Program.
Variable icloud : PyiCloud.
Variable api : AliasAPI.
Variable terminal : Terminal.

Lemma get_by_email_or_id_cases (identifier : string) (m : Machine) :
  let '(r, m') := HideMyEmailService.get_by_email_or_id api identifier m in
  same_but_journal m m'
  /\ (journal m' = journal m \/ journal m' = journal m ++ [Api_iter])
  /\ match r with
     | Ok (Some alias) => identifies identifier alias
     | _ => True
     end.
Proof.
  destruct m as [w d j c k].
  unfold HideMyEmailService.get_by_email_or_id, HideMyEmailService.list_all,
    AppM.bind, AppM.try_except, same_but_journal.
  rewrite hidemyemail_eq.
  destruct (ICloudClient._api c) as [handle|]; cbn [fst snd].
  2: { cbn. auto 10. }
  destruct (api_iter api handle _) as [items ending]. cbn [fst snd].
  destruct (find _ (map EmailAlias.from_api items)) as [alias|] eqn:Hfind.
  - apply find_some in Hfind as [_ Htest].
    apply orb_true_iff in Htest. rewrite !String.eqb_eq in Htest.
    cbn. auto 10.
  - destruct ending; cbn; auto 10.
Qed.

(** The lookup shows texts and iterates the service, nothing else; when it
    returns an alias, the alias carries the identifier and the client is
    logged in. *)
Lemma look_up_cases (email_or_id : string) (m : Machine) :
  let '(r, m') := emails.look_up LA security icloud api terminal email_or_id m in
  exists calls,
    journal m' = journal m ++ Status "Looking up alias..." :: calls
    /\ Forall (fun c => lookup_call c = true) calls
    /\ match r with
       | Ok alias => identifies email_or_id alias /\ exists handle, logged_in m' handle
       | Err _ => True
       end.
Proof.
  unfold emails.look_up, AppM.bind, Console.status.
  pose proof (get_service_cases LA security icloud terminal
                (record_call (Status "Looking up alias...") m)) as Hgs.
  destruct (emails.get_service LA security icloud terminal _) as [[[]|e] m1].
  2: { destruct Hgs as (_ & _ & Hgs). destruct e as [e|msg|code|]; try contradiction.
       - destruct Hgs as [_ ->]. exists []. cbn. auto.
       - destruct Hgs as (_ & lines & -> & _). exists (map Print lines).
         cbn. rewrite <- ?app_assoc. split; [reflexivity|]. split; [|exact I].
         apply Forall_map. now apply Forall_true. }
  destruct Hgs as (_ & _ & Hj & username & handle & _ & Hin & _).
  pose proof (get_by_email_or_id_cases email_or_id m1) as Hget.
  destruct (HideMyEmailService.get_by_email_or_id api email_or_id m1) as [[[alias|]|e] m2].
  - destruct Hget as ((_ & _ & Hc & _) & Hj2 & Hid). cbn [journal record_call] in Hj.
    unfold logged_in in *. rewrite <- Hc in Hin. cbn.
    destruct Hj2 as [Hj2 | Hj2]; rewrite Hj2, Hj, <- ?app_assoc; cbn [app];
      eexists; (split; [reflexivity|]); (split; [solve_Forall|eauto]).
  - destruct Hget as (_ & Hj2 & _). cbn [journal record_call] in Hj.
    cbn. destruct Hj2 as [Hj2 | Hj2]; rewrite Hj2, Hj, <- ?app_assoc; cbn;
      eexists; (split; [reflexivity|]); split; auto; solve_Forall.
  - destruct Hget as (_ & Hj2 & _). cbn [journal record_call] in Hj. cbn.
    destruct Hj2 as [Hj2 | Hj2]; rewrite Hj2, Hj, <- ?app_assoc; cbn;
      eexists; (split; [reflexivity|]); split; auto; solve_Forall.
Qed.

End LookUp.

Lemma harmless_app (a b : list Call) : harmless a -> harmless b -> harmless (a ++ b).
Proof. intros Ha Hb. apply List.Forall_app. now split. Qed.

Lemma harmless_lookup (calls : list Call) :
  Forall (fun c => lookup_call c = true) calls ->
  harmless (Status "Looking up alias..." :: calls).
Proof.
  intros H. apply List.Forall_cons; [exact I|].
  eapply List.Forall_impl; [|exact H]. now intros [].
Qed.

Section Mutations.
Variable LA : LocalAuthentication.
Variable security : Program.
Variable icloud : PyiCloud.
Variable api : AliasAPI.
Variable terminal : Terminal.

(** On a client that is logged in, the four methods that change an alias
    call the service once and answer what it answers, [False] when it
    raises. *)
Lemma guarded_call_logged_in (event : Call)
    (answer : PyiCloudService -> Machine -> Outcome bool)
    (m : Machine) (handle : PyiCloudService) :
  logged_in m handle ->
  AppM.try_except
    (AppM.bind HideMyEmailService.hidemyemail
       (fun service => HideMyEmailService.call event (answer service)))
    (fun _ => Some (AppM.ret false)) m
  = (Ok (match answer handle m with Return b => b | Raise _ => false end),
     record_call event m).
Proof.
  destruct m as [w d j c k]. unfold logged_in. cbn [local_client]. intros Hin.
  unfold AppM.try_except, AppM.bind, HideMyEmailService.call.
  rewrite hidemyemail_eq, Hin.
  now destruct (answer handle _).
Qed.

Lemma logged_in_record_call (c : Call) (m : Machine) (handle : PyiCloudService) :
  logged_in m handle -> logged_in (record_call c m) handle.
Proof. exact (fun H => H). Qed.

Ltac journal_step :=
  unfold Console.print, Console.status, Console.confirm, AppM.ret, AppM.raise, AppM.bind;
  cbn [fst snd journal record_call];
  rewrite <- ?app_assoc; cbn [app].

(** [delete] deletes only what it was told to, and only with consent.  All
    it shows, asks and calls is harmless, but for one possible call at the
    end: the deletion of an alias that carries the identifier given, made
    with [--force] or after a yes to "Are you sure?".  The command returns
    normally only after that call. *)
Theorem delete_needs_consent (m : Machine) (email_or_id : string) (force : bool) :
  exists asked,
    harmless asked
    /\ ((calls_since m (snd (emails.delete LA security icloud api terminal
                               email_or_id force m))
         = asked
         /\ fst (emails.delete LA security icloud api terminal email_or_id force m)
            <> Ok tt)
        \/ exists alias last,
            identifies email_or_id alias
            /\ calls_since m (snd (emails.delete LA security icloud api terminal
                                     email_or_id force m))
               = asked ++ [Status "Deleting..."; Api_delete (EmailAlias.anonymous_id alias);
                           Print last]
            /\ (force = true
                \/ Confirm "Are you sure?" ∈ asked
                   /\ exists s, confirm_answer terminal "Are you sure?" s = true)).
Proof.
  unfold emails.delete, AppM.bind.
  pose proof (look_up_cases LA security icloud api terminal email_or_id m) as Hlook.
  destruct (emails.look_up LA security icloud api terminal email_or_id m)
    as [[alias|e] m1].
  2: { destruct Hlook as (calls & Hj & Hcalls & _).
       exists (Status "Looking up alias..." :: calls). split.
       - now apply harmless_lookup.
       - left. split; [now apply calls_since_app|discriminate]. }
  destruct Hlook as (calls & Hj & Hcalls & Hid & handle & Hin).
  pose proof (harmless_lookup calls Hcalls) as Hharm.
  destruct force; cbn [negb].
  - unfold Console.status, AppM.ret. cbn [fst snd].
    unfold HideMyEmailService.delete.
    rewrite (guarded_call_logged_in _ (fun service => api_delete api service _) _ handle)
      by exact Hin.
    exists (Status "Looking up alias..." :: calls). split; [exact Hharm|].
    right. exists alias.
    destruct (api_delete api handle _ _) as [[]|e]; eexists;
      (split; [exact Hid|]); (split; [|now left]);
      apply calls_since_app; journal_step; rewrite Hj; journal_step;
      now rewrite <- ?app_assoc.
  - unfold Console.print, Console.confirm. cbn [fst snd].
    destruct (confirm_answer terminal "Are you sure?" _) eqn:Hyes; cbn [negb].
    + unfold Console.status, AppM.ret. cbn [fst snd].
      unfold HideMyEmailService.delete.
      rewrite (guarded_call_logged_in _ (fun service => api_delete api service _) _ handle)
        by exact Hin.
      exists (Status "Looking up alias..." :: calls
              ++ [Print "[bold red]Warning:[/bold red] This will permanently delete the alias.";
                  Print ("  Email: [cyan]" +:+ EmailAlias.email alias +:+ "[/cyan]");
                  Print ("  Label: " +:+ EmailAlias.label alias);
                  Confirm "Are you sure?"]).
      split.
      { apply (harmless_app (Status "Looking up alias..." :: calls) _ Hharm).
        repeat constructor. }
      right. exists alias.
      destruct (api_delete api handle _ _) as [[]|e]; eexists;
        (split; [exact Hid|]);
        (split; [|right; split; [set_solver|eexists; exact Hyes]]);
        apply calls_since_app; journal_step; rewrite Hj; journal_step;
        now rewrite <- ?app_assoc.
    + exists (Status "Looking up alias..." :: calls
              ++ [Print "[bold red]Warning:[/bold red] This will permanently delete the alias.";
                  Print ("  Email: [cyan]" +:+ EmailAlias.email alias +:+ "[/cyan]");
                  Print ("  Label: " +:+ EmailAlias.label alias);
                  Confirm "Are you sure?"]).
      split.
      { apply (harmless_app (Status "Looking up alias..." :: calls) _ Hharm).
        repeat constructor. }
      left. split; [|discriminate].
      apply calls_since_app; journal_step; rewrite Hj; journal_step;
        now rewrite <- ?app_assoc.
Qed.


(** [update] changes the alias that carries the identifier given, and
    sends the service the label and the note of that alias where none was
    given.  Without [--label] and [--note] it exits with code 1 before it
    looks anything up, logs in or reads the keychain. *)
Theorem update_keeps_what_is_not_given (m : Machine) (email_or_id : string)
    (label note : option string) :
  (exists shown,
      Forall (fun c => lookup_call c = true) shown
      /\ (calls_since m (snd (emails.update LA security icloud api terminal
                                email_or_id label note m))
          = shown
          \/ exists alias lines,
              identifies email_or_id alias
              /\ calls_since m (snd (emails.update LA security icloud api terminal
                                       email_or_id label note m))
                 = shown
                   ++ Status "Updating..."
                      :: Api_update_metadata (EmailAlias.anonymous_id alias)
                           (default (EmailAlias.label alias) label)
                           (default (EmailAlias.note alias) note)
                      :: map Print lines))
  /\ (label = None -> note = None ->
      emails.update LA security icloud api terminal email_or_id label note m
      = (Err (Exit 1),
         record_call (Print "[yellow]Specify at least --label or --note to update[/yellow]")
           m)).
Proof.
  split; [|now intros -> ->].
  pose proof (look_up_cases LA security icloud api terminal email_or_id m) as Hlook.
  destruct label as [l|], note as [n|]; cbn [default].
  4: { exists [Print "[yellow]Specify at least --label or --note to update[/yellow]"].
       split; [now repeat constructor|]. left. apply calls_since_app. reflexivity. }
  all: unfold emails.update, AppM.bind;
    destruct (emails.look_up LA security icloud api terminal email_or_id m)
      as [[alias|e] m1];
    [ destruct Hlook as (calls & Hj & Hcalls & Hid & handle & Hin)
    | destruct Hlook as (calls & Hj & Hcalls & _);
      exists (Status "Looking up alias..." :: calls);
      (split; [now apply List.Forall_cons|]); left; now apply calls_since_app ].
  all: exists (Status "Looking up alias..." :: calls);
    (split; [now apply List.Forall_cons|]);
    right; exists alias;
    unfold Console.status; cbn [fst snd];
    unfold HideMyEmailService.update;
    rewrite (guarded_call_logged_in _
               (fun service => api_update_metadata api service _ _ _) _ handle)
      by exact Hin;
    destruct (api_update_metadata api handle _ _ _ _) as [[]|e];
    first [eexists [_; _; _]; split; [exact Hid|]; apply calls_since_app; journal_step;
           rewrite Hj; journal_step; rewrite <- ?app_assoc; cbn [map app]; reflexivity
          |eexists [_; _]; split; [exact Hid|]; apply calls_since_app; journal_step;
           rewrite Hj; journal_step; rewrite <- ?app_assoc; cbn [map app]; reflexivity
          |eexists [_]; split; [exact Hid|]; apply calls_since_app; journal_step;
           rewrite Hj; journal_step; rewrite <- ?app_assoc; cbn [map app]; reflexivity].
Qed.

End Mutations.

(** ** The commands [setup], [logout] and [status] *)


Section AuthFacts.
Variable LA : LocalAuthentication.
Variable icloud : PyiCloud.
Variable terminal : Terminal.

(** [touchid_available] answers after calls of the gate. *)
Lemma touchid_available_run (w : World) (d : config.Disk) (j : list Call)
    (c : ICloudClient.t) (k : KeychainManager.t) :
  exists b evs,
    auth.touchid_available LA
      {| world := w; disk := d; journal := j; local_client := c; local_keychain := k |}
    = (Ok b, {| world := log_events evs w; disk := d; journal := j; local_client := c;
                local_keychain := k |})
    /\ touchid.is_available LA w = (Return b, log_events evs w)
    /\ Forall (fun e => gate_event e = true) evs.
Proof.
  destruct (is_available_returns LA w) as (b & evs & Hav & Hevs).
  exists b, (Call_is_available :: evs).
  unfold auth.touchid_available, Run.on_world, AppM.core. cbn [world].
  rewrite Hav. repeat split.
  destruct Hevs as [-> | ->]; solve_Forall.
Qed.



End AuthFacts.



Ltac machine_step :=
  unfold record_call, set_world, set_disk, set_local_client, set_local_keychain;
  cbn [fst snd journal world disk local_client local_keychain negb].

Ltac step_touchid LA b :=
  match goal with
  | |- context [auth.touchid_available LA
                  {| world := ?w; disk := ?d; journal := ?j; local_client := ?c;
                     local_keychain := ?k |}] =>
      let evs := fresh "evs" in
      let Hav := fresh "Hav" in
      destruct (touchid_available_run LA w d j c k) as (b & evs & -> & Hav & ?)
  end.

Section Setup.
Variable LA : LocalAuthentication.
Variable icloud : PyiCloud.
Variable terminal : Terminal.


(** Without Touch ID and without the user's consent [setup] stops before
    it asks for anything: it aborts, no account and no password has been
    asked, and the keychain, the session directory and the configuration
    are as they were. *)
Theorem setup_declined (security : Program) (m : Machine) :
  fst (touchid.is_available LA (world m)) = Return false ->
  (forall s, confirm_answer terminal "Continue without Touch ID protection?" s = false) ->
  exists m',
    auth.setup LA security icloud terminal m = (Err Abort, m')
    /\ (forall text hidden, Ask text hidden ∉ calls_since m m')
    /\ Forall (fun e => gate_event e = true) (events_since (world m) (world m'))
    /\ keychain_items (world m') = keychain_items (world m)
    /\ session_dir (world m') = session_dir (world m)
    /\ disk m' = disk m.
Proof.
  destruct m as [w d j c k]. cbn [world disk]. intros Hgate Hno.
  unfold auth.setup, AppM.bind, Console.print. machine_step.
  step_touchid LA b1.
  rewrite Hav in Hgate. cbn [fst] in Hgate. injection Hgate as ->.
  unfold Console.confirm. rewrite Hno. machine_step. unfold AppM.raise.
  eexists. split; [reflexivity|]. machine_step.
  split; [|split; [now rewrite events_since_log_events|repeat split]].
  intros text hidden. unfold calls_since. cbn [journal].
  rewrite <- !app_assoc, drop_app_length. cbn [app].
  intros Hin. apply list_elem_of_In in Hin. cbn [In] in Hin.
  repeat (destruct Hin as [Hin|Hin]; [discriminate Hin|]). exact Hin.
Qed.

End Setup.


(** No Touch ID, and the answer is no. *)
Lemma setup_declined_witness :
  fst (auth.setup Demo.no_touch_id Security.run Demo.icloud_trusted
         (Demo2.person false "p@ss1") Demo2.new_machine)
  = Err Abort.
Proof.
  destruct (setup_declined Demo.no_touch_id Demo.icloud_trusted (Demo2.person false "p@ss1")
              Security.run Demo2.new_machine) as (m' & Hrun & _);
    [reflexivity|intros; reflexivity|now rewrite Hrun].
Defined.


Section Logout.
Variable terminal : Terminal.


End Logout.


Section Status.
Variable LA : LocalAuthentication.
Variable security : Program.
Variable icloud : PyiCloud.


End Status.

